(** * ThreadTiming: the per-thread timing recorder of mandelbrot_threads

    A shallow embedding of [mandelbrot_threads/thread_timing.cpp] (built with
    ENABLE_THREAD_TIMING) and the properties of its run life cycle:
    [beginRun], [recordSample], [setRunLabel], [setOutputPath], [endRun].

    - [int] is a 32-bit two's-complement integer, kept as a [Z] with the
      wrap-around of [++] written out;
    - [double] is IEEE 754 binary64, kept as Rocq's primitive [float];
    - [std::string] is [string]; what [c_str()] hands to the C library is
      the prefix before the first NUL character;
    - the C library calls of the file ([fopen], [fgetc], [fclose],
      [fprintf], [perror]) act on an explicit [world]: the resolution of
      path names, a finite map from resolved names to files, the stream
      [stderr] and [errno];
    - the recorder's singleton [state()] and the world are threaded through
      a small state monad.  The mutex serialises the accesses to the
      buffer, the label and the counters; the development follows the
      calls in the order they take effect, one call being one step. *)

From Stdlib Require Import ZArith Lia Ascii String.
From Stdlib Require Import PrimFloat FloatOps SpecFloat.
From Stdlib Require Import Decimal DecimalString DecimalPos DecimalZ.
From stdpp Require Import gmap strings list.

Set Warnings "-inexact-float".
Local Open Scope string_scope.
Local Open Scope Z_scope.

(** ** A state monad *)

Definition State (S A : Type) : Type := S -> A * S.

Definition ret {S A} (a : A) : State S A := fun s => (a, s).

Definition bind {S A B} (c : State S A) (k : A -> State S B) : State S B :=
  fun s => let (a, s') := c s in k a s'.

Definition gets {S A} (f : S -> A) : State S A := fun s => (f s, s).

Definition modify {S} (f : S -> S) : State S unit := fun s => (tt, f s).

Declare Scope monad_scope.
Delimit Scope monad_scope with monad.
Notation "x <- c ;; k" := (bind c (fun x => k))
  (at level 100, c at next level, right associativity) : monad_scope.
Notation "c ;;; k" := (bind c (fun _ => k))
  (at level 100, right associativity) : monad_scope.
Local Open Scope monad_scope.

(** [for (const auto& x : l) body(x);] *)
Fixpoint for_each {S A} (l : list A) (body : A -> State S unit) : State S unit :=
  match l with
  | [] => ret tt
  | x :: l' => body x ;;; for_each l' body
  end.

(** The state a computation ends in. *)
Definition run_state {S A} (c : State S A) (s : S) : S := (c s).2.

(** ** Machine integers *)

Definition INT_MAX : Z := 2147483647.
Definition INT_MIN : Z := -2147483648.

(** The value a 32-bit register holds for the mathematical integer [z]. *)
Definition wrap_int (z : Z) : Z := (z + 2 ^ 31) `mod` 2 ^ 32 - 2 ^ 31.

(** [++x] on an [int].  At [INT_MAX] ISO C++ leaves the overflow undefined;
    the increment instruction wraps to [INT_MIN]. *)
Definition pre_incr (x : Z) : Z := wrap_int (x + 1).

(** ** Strings *)

Definition NUL : ascii := Ascii.zero.
Definition newline : ascii := "010"%char.

(** The bytes a C function sees through [s.c_str()]. *)
Fixpoint c_str (s : string) : string :=
  match s with
  | EmptyString => EmptyString
  | String c s' => if Ascii.eqb c NUL then EmptyString else String c (c_str s')
  end.

(** Number of newline characters, i.e. of complete text lines. *)
Fixpoint count_lines (s : string) : nat :=
  match s with
  | EmptyString => O
  | String c s' => (if Ascii.eqb c newline then 1 else 0)%nat + count_lines s'
  end.

Fixpoint concat_strings (l : list string) : string :=
  match l with
  | [] => ""
  | s :: l' => s +:+ concat_strings l'
  end.

(** ** printf conversions *)

(** [%d] *)
Definition fmt_d (z : Z) : string := NilZero.string_of_int (Z.to_int z).

Fixpoint zeros (n : nat) : string :=
  match n with
  | O => ""
  | S n' => String "0" (zeros n')
  end.

(** A non-negative integer in at least [width] digits, zero padded. *)
Definition fmt_0u (width : nat) (z : Z) : string :=
  let digits := NilZero.string_of_uint (N.to_uint (Z.to_N z)) in
  zeros (width - String.length digits) +:+ digits.

(** [num / den] rounded to the nearest integer, ties to even
    ([0 <= num], [0 < den]). *)
Definition round_half_even (num den : Z) : Z :=
  let q := num / den in
  match (2 * (num `mod` den)) ?= den with
  | Lt => q
  | Gt => q + 1
  | Eq => if Z.even q then q else q + 1
  end.

(** The magnitude [m * 2^e] in units of 10^-6, correctly rounded. *)
Definition micro_units (m e : Z) : Z :=
  if 0 <=? e then m * 2 ^ e * 1000000
  else round_half_even (m * 1000000) (2 ^ (- e)).

Definition sign_text (s : bool) : string := if s then "-" else "".

(** [%.6f]: the exact binary value, rounded to six decimals in the default
    rounding mode.  Primitive floats have a single NaN, so the sign that
    the C library prints in front of a negative NaN is not modelled. *)
Definition fmt_f6 (x : float) : string :=
  match Prim2SF x with
  | S754_nan => "nan"
  | S754_infinity s => sign_text s +:+ "inf"
  | S754_zero s => sign_text s +:+ "0.000000"
  | S754_finite s m e =>
      let n := micro_units (Z.pos m) e in
      sign_text s +:+ fmt_d (n / 1000000) +:+ "." +:+ fmt_0u 6 (n `mod` 1000000)
  end.

(** ** The C library's files *)

Inductive errno_t : Type :=
  | ESUCCESS | ENOENT | EACCES | EISDIR | ENOTDIR | EMFILE | ENOSPC | EROFS | EINVAL.

Definition strerror (e : errno_t) : string :=
  match e with
  | ESUCCESS => "Success"
  | ENOENT => "No such file or directory"
  | EACCES => "Permission denied"
  | EISDIR => "Is a directory"
  | ENOTDIR => "Not a directory"
  | EMFILE => "Too many open files"
  | ENOSPC => "No space left on device"
  | EROFS => "Read-only file system"
  | EINVAL => "Invalid argument"
  end.

(** What the name of a file denotes.  A name absent from the map denotes no
    file, and one that [fopen] may create. *)
Inductive node : Type :=
  | Regular (readable appendable : bool) (data : string)
      (* a file, with what this process may do to it *)
  | Blocked (e : errno_t).
      (* a name at which [fopen] fails with [e] in every mode: a missing or
         unsearchable directory on the way, a read-only file system, ... *)

(** Several path names can lead to one file ([t.csv] and [./t.csv], a
    relative and an absolute name, a link and its target).  [resolve] maps
    a path name, as a program spells it, to the name of the file it leads
    to; [files] is keyed by those resolved names.  A name that can lead to
    no file, such as the empty name, is held as [Blocked ENOENT]. *)
Record world : Type := mkWorld {
  resolve : string -> string;
  files : gmap string node;
  creat_readable : bool;   (* may this process read a file it creates? (umask) *)
  creat_appendable : bool; (* ... and reopen it for writing? *)
  c_errno : errno_t;
  stderr : string
}.

Definition set_files (f : gmap string node → gmap string node) (w : world) : world :=
  mkWorld (resolve w) (f (files w)) (creat_readable w) (creat_appendable w)
          (c_errno w) (stderr w).

Definition set_errno (e : errno_t) (w : world) : world :=
  mkWorld (resolve w) (files w) (creat_readable w) (creat_appendable w) e (stderr w).

Definition write_stderr (text : string) (w : world) : world :=
  mkWorld (resolve w) (files w) (creat_readable w) (creat_appendable w) (c_errno w)
          (stderr w +:+ text).

(** An open stream: the resolved name of the file it is bound to, and the
    read position. *)
Record FILE : Type := mkFILE { f_path : string; f_pos : nat }.

Definition EOF : Z := -1.

Definition fail_with {A} (e : errno_t) : State world (option A) :=
  modify (set_errno e) ;;; ret None.

(** [fopen(path, mode)] for the two modes the recorder uses; [None] is the
    null pointer. *)
Definition fopen (path mode : string) : State world (option FILE) :=
  w <- gets id ;;
  let name := resolve w path in
  if String.eqb mode "r" then
    match files w !! name with
    | None => fail_with ENOENT
    | Some (Blocked e) => fail_with e
    | Some (Regular r _ _) =>
        if r then ret (Some (mkFILE name 0)) else fail_with EACCES
    end
  else if String.eqb mode "a" then
    match files w !! name with
    | None =>
        modify (set_files <[name := Regular (creat_readable w) (creat_appendable w) ""]>) ;;;
        ret (Some (mkFILE name 0))
    | Some (Blocked e) => fail_with e
    | Some (Regular _ a _) =>
        if a then ret (Some (mkFILE name 0)) else fail_with EACCES
    end
  else fail_with EINVAL.

(** [fgetc]: the next byte as a non-negative [int], or [EOF].  The recorder
    reads one byte and closes the stream, so the advanced position is not
    kept. *)
Definition fgetc (fp : FILE) : State world Z :=
  w <- gets id ;;
  match files w !! f_path fp with
  | Some (Regular _ _ data) =>
      match String.get (f_pos fp) data with
      | Some c => ret (Z.of_N (N_of_ascii c))
      | None => ret EOF
      end
  | _ => ret EOF
  end.

Definition fclose (fp : FILE) : State world Z := ret 0.

Definition append_data (text : string) (n : node) : node :=
  match n with
  | Regular r a data => Regular r a (data +:+ text)
  | Blocked e => Blocked e
  end.

(** Output to a stream opened for appending: every write lands at the end
    of the file.  Writes to an open stream are taken to succeed (the
    recorder ignores the result of [fprintf]). *)
Definition fprintf (fp : FILE) (text : string) : State world unit :=
  modify (set_files (alter (append_data text) (f_path fp))).

(** [perror(msg)] *)
Definition perror (msg : string) : State world unit :=
  w <- gets id ;;
  modify (write_stderr (msg +:+ ": " +:+ strerror (c_errno w) +:+ String newline "")).

(** The text of the file that [path] leads to; [None] when there is no
    such file. *)
Definition file_data (w : world) (path : string) : option string :=
  match files w !! resolve w path with
  | Some (Regular _ _ data) => Some data
  | _ => None
  end.

(** ** The recorder *)

Module ThreadTiming.

Record Sample : Type := mkSample {
  threadId : Z;
  startMs : float;
  endMs : float;
  durationMs : float
}.

(** [struct GlobalState], without its mutex. *)
Record GlobalState : Type := mkGlobalState {
  runId : Z;
  numThreads : Z;
  runCounter : Z;
  label : string;
  outputPath : string;
  samples : list Sample
}.

(** The function-local static of [state()], as first constructed. *)
Definition initial_state : GlobalState :=
  {| runId := 0; numThreads := 0; runCounter := 0; label := "";
     outputPath := "thread_timings.csv"; samples := [] |}.

(** The process: the singleton behind [state()] and the C library's world. *)
Record machine : Type := mkMachine { g : GlobalState; w : world }.

(** A C library call, run by the process. *)
Definition io {A} (c : State world A) : State machine A :=
  fun m => let (a, w') := c (w m) in (a, mkMachine (g m) w').

(** [state()] *)
Definition state : State machine GlobalState := gets g.

Definition update (f : GlobalState -> GlobalState) : State machine unit :=
  modify (fun m => mkMachine (f (g m)) (w m)).

Definition set_runId (v : Z) (s : GlobalState) : GlobalState :=
  mkGlobalState v (numThreads s) (runCounter s) (label s) (outputPath s) (samples s).
Definition set_numThreads (v : Z) (s : GlobalState) : GlobalState :=
  mkGlobalState (runId s) v (runCounter s) (label s) (outputPath s) (samples s).
Definition set_runCounter (v : Z) (s : GlobalState) : GlobalState :=
  mkGlobalState (runId s) (numThreads s) v (label s) (outputPath s) (samples s).
Definition set_label (v : string) (s : GlobalState) : GlobalState :=
  mkGlobalState (runId s) (numThreads s) (runCounter s) v (outputPath s) (samples s).
Definition set_outputPath (v : string) (s : GlobalState) : GlobalState :=
  mkGlobalState (runId s) (numThreads s) (runCounter s) (label s) v (samples s).
Definition set_samples (v : list Sample) (s : GlobalState) : GlobalState :=
  mkGlobalState (runId s) (numThreads s) (runCounter s) (label s) (outputPath s) v.

(** [v.empty()] *)
Definition empty {A} (v : list A) : bool :=
  match v with
  | [] => true
  | _ :: _ => false
  end.

Definition fileHasContent (path : string) : State world bool :=
  fp <- fopen (c_str path) "r" ;;
  match fp with
  | None => ret false
  | Some fp =>
      ch <- fgetc fp ;;
      fclose fp ;;;
      ret (negb (ch =? EOF))
  end.

Definition setOutputPath (path : string) : State machine unit :=
  update (set_outputPath path).

Definition setRunLabel (label : string) : State machine unit :=
  update (set_label label).

Definition beginRun (numThreads : Z) : State machine unit :=
  update (set_samples []) ;;;
  update (set_numThreads numThreads) ;;;
  s <- state ;;
  let counter := pre_incr (runCounter s) in
  update (set_runCounter counter) ;;;
  update (set_runId counter).

Definition recordSample (threadId : Z) (startSeconds endSeconds : float)
  : State machine unit :=
  let sample :=
    {| threadId := threadId;
       startMs := (startSeconds * 1000)%float;
       endMs := (endSeconds * 1000)%float;
       durationMs := ((endSeconds - startSeconds) * 1000)%float |} in
  s <- state ;;
  update (set_samples (samples s ++ [sample])).

Definition header : string :=
  "run_id,label,num_threads,thread_id,start_ms,end_ms,duration_ms" +:+ String newline "".

(** [fprintf(fp, "%d,%s,%d,%d,%.6f,%.6f,%.6f\n", runId, label.c_str(),
    numThreads, sample.threadId, sample.startMs, sample.endMs,
    sample.durationMs)] writes this text. *)
Definition row (runId : Z) (label : string) (numThreads : Z) (sample : Sample) : string :=
  fmt_d runId +:+ "," +:+ c_str label +:+ "," +:+ fmt_d numThreads +:+ "," +:+
  fmt_d (threadId sample) +:+ "," +:+ fmt_f6 (startMs sample) +:+ "," +:+
  fmt_f6 (endMs sample) +:+ "," +:+ fmt_f6 (durationMs sample) +:+ String newline "".

Definition endRun : State machine unit :=
  s <- state ;;
  if empty (samples s) then ret tt
  else
    let localSamples := samples s in
    let label := label s in
    let runId := runId s in
    let numThreads := numThreads s in
    path <- gets (fun m => outputPath (g m)) ;;
    hasContent <- io (fileHasContent path) ;;
    let needHeader := negb hasContent in
    path <- gets (fun m => outputPath (g m)) ;;
    fp <- io (fopen (c_str path) "a") ;;
    match fp with
    | None => io (perror "thread_timings fopen")
    | Some fp =>
        (if needHeader then io (fprintf fp header) else ret tt) ;;;
        for_each localSamples
          (fun sample => io (fprintf fp (row runId label numThreads sample))) ;;;
        io (fclose fp) ;;;
        ret tt
    end.

(** The calls a client can make, and a client as a sequence of them. *)
Inductive call : Type :=
  | SetOutputPath (path : string)
  | SetRunLabel (label : string)
  | BeginRun (numThreads : Z)
  | RecordSample (threadId : Z) (startSeconds endSeconds : float)
  | EndRun.

Definition exec_call (c : call) : State machine unit :=
  match c with
  | SetOutputPath path => setOutputPath path
  | SetRunLabel label => setRunLabel label
  | BeginRun n => beginRun n
  | RecordSample t s e => recordSample t s e
  | EndRun => endRun
  end.

Definition exec (cs : list call) : State machine unit := for_each cs exec_call.

(** A process at start-up, in the world [w0]. *)
Definition boot (w0 : world) : machine := mkMachine initial_state w0.

End ThreadTiming.

(** ** Specification vocabulary *)

Import ThreadTiming.

(** The sample that [recordSample threadId startSeconds endSeconds] stores. *)
Definition sample_of (threadId : Z) (startSeconds endSeconds : float) : Sample :=
  {| threadId := threadId;
     startMs := (startSeconds * 1000)%float;
     endMs := (endSeconds * 1000)%float;
     durationMs := ((endSeconds - startSeconds) * 1000)%float |}.

(** The samples that the [recordSample] calls of a client store, in call order. *)
Fixpoint recorded (cs : list call) : list Sample :=
  match cs with
  | [] => []
  | RecordSample t s e :: cs' => sample_of t s e :: recorded cs'
  | _ :: cs' => recorded cs'
  end.

(** Number of [recordSample] calls of a client. *)
Fixpoint count_record (cs : list call) : nat :=
  match cs with
  | [] => O
  | RecordSample _ _ _ :: cs' => S (count_record cs')
  | _ :: cs' => count_record cs'
  end.

(** Number of [beginRun] calls of a client. *)
Fixpoint count_begin (cs : list call) : Z :=
  match cs with
  | [] => 0
  | BeginRun _ :: cs' => 1 + count_begin cs'
  | _ :: cs' => count_begin cs'
  end.

(** The label in force after a client that started with the label [l0]. *)
Fixpoint last_label (l0 : string) (cs : list call) : string :=
  match cs with
  | [] => l0
  | SetRunLabel l :: cs' => last_label l cs'
  | _ :: cs' => last_label l0 cs'
  end.

(** The output path in force after a client that started with [p0]. *)
Fixpoint last_path (p0 : string) (cs : list call) : string :=
  match cs with
  | [] => p0
  | SetOutputPath p :: cs' => last_path p cs'
  | _ :: cs' => last_path p0 cs'
  end.

(** A call that neither begins nor ends a run. *)
Definition inside_run (c : call) : bool :=
  match c with
  | BeginRun _ | EndRun => false
  | _ => true
  end.

(** The rows [endRun] prints for the buffer of [s]. *)
Definition rows_of (s : GlobalState) : list string :=
  map (row (runId s) (label s) (numThreads s)) (samples s).

(** The text of the file the recorder writes to; empty when there is none. *)
Definition output_text (m : machine) : string :=
  default "" (file_data (w m) (c_str (outputPath (g m)))).

(** The error with which opening the output file for appending fails in
    [m]; [None] when the file opens. *)
Definition append_failure (m : machine) : option errno_t :=
  let (fp, w') := fopen (c_str (outputPath (g m))) "a" (w m) in
  match fp with
  | None => Some (c_errno w')
  | Some _ => None
  end.

(** What [fileHasContent] answers for the output file in [m]. *)
Definition output_has_content (m : machine) : bool :=
  (fileHasContent (outputPath (g m)) (w m)).1.

(** Can the output file be opened for reading in [m]? *)
Definition readable_output (m : machine) : bool :=
  match (fopen (c_str (outputPath (g m))) "r" (w m)).1 with
  | Some _ => true
  | None => false
  end.

(** The line [perror] prints when [fopen] failed with [e]. *)
Definition diagnostic (e : errno_t) : string :=
  "thread_timings fopen: " +:+ strerror e +:+ String newline "".

(** What a flush appends: the header when asked for, then the rows. *)
Definition flush_text (needHeader : bool) (s : GlobalState) : string :=
  (if needHeader then header else "") +:+ concat_strings (rows_of s).

(** The resolved name of the file the recorder writes to. *)
Definition output_name (m : machine) : string :=
  resolve (w m) (c_str (outputPath (g m))).

(** The permissions of the output file, or those it would be created with. *)
Definition output_perms (m : machine) : bool * bool :=
  match files (w m) !! resolve (w m) (c_str (outputPath (g m))) with
  | Some (Regular r a _) => (r, a)
  | _ => (creat_readable (w m), creat_appendable (w m))
  end.

(** A text line. *)
Definition line (s : string) : string := s +:+ String newline "".

(** Name resolution in a process that stays in one directory without
    links: a leading [./] is dropped. *)
Fixpoint plain_name (s : string) : string :=
  match s with
  | String c1 (String c2 s') =>
      if Ascii.eqb c1 "." && Ascii.eqb c2 "/" then plain_name s' else s
  | _ => s
  end.

(** A world without files, where created files can be read and reopened. *)
Definition fresh_world : world := mkWorld plain_name ∅ true true ESUCCESS "".

(** A world whose [thread_timings.csv] holds an earlier run and has lost
    its read permission. *)
Definition write_only_world : world :=
  mkWorld plain_name
    {[ "thread_timings.csv" :=
         Regular false true
           (line "run_id,label,num_threads,thread_id,start_ms,end_ms,duration_ms"
            +:+ line "1,,1,0,0.000000,1000.000000,1000.000000") ]}
    true true ESUCCESS "".

(** A world whose [thread_timings.csv] holds an earlier run and can be
    read and appended to. *)
Definition earlier_run_world : world :=
  mkWorld plain_name
    {[ "thread_timings.csv" :=
         Regular true true
           (line "run_id,label,num_threads,thread_id,start_ms,end_ms,duration_ms"
            +:+ line "1,,1,0,0.000000,1000.000000,1000.000000") ]}
    true true ESUCCESS "".

(** A world where nothing can be opened under [out/]. *)
Definition no_directory_world : world :=
  mkWorld plain_name {[ "out/t.csv" := Blocked ENOENT ]} true true ESUCCESS "".

(** A world where a created file cannot be read back (a umask that clears
    the owner's read bit). *)
Definition blind_world : world := mkWorld plain_name ∅ false true ESUCCESS "".

(** ** The rest of the recorder *)

(** [endRun] in its two phases.  The first runs under the mutex and copies
    what the flush needs; the second runs after the mutex is released and
    does the file output, reading [s.outputPath] then. *)
Record snapshot : Type := mkSnapshot {
  snap_samples : list Sample;
  snap_label : string;
  snap_runId : Z;
  snap_numThreads : Z
}.

(** The block under [std::lock_guard]; [None] is the early [return]. *)
Definition endRun_locked : State machine (option snapshot) :=
  s <- state ;;
  if empty (samples s) then ret None
  else ret (Some (mkSnapshot (samples s) (label s) (runId s) (numThreads s))).

(** The statements after the block. *)
Definition endRun_unlocked (snap : snapshot) : State machine unit :=
  path <- gets (fun m => outputPath (g m)) ;;
  hasContent <- io (fileHasContent path) ;;
  let needHeader := negb hasContent in
  path <- gets (fun m => outputPath (g m)) ;;
  fp <- io (fopen (c_str path) "a") ;;
  match fp with
  | None => io (perror "thread_timings fopen")
  | Some fp =>
      (if needHeader then io (fprintf fp header) else ret tt) ;;;
      for_each (snap_samples snap)
        (fun sample =>
           io (fprintf fp (row (snap_runId snap) (snap_label snap)
                               (snap_numThreads snap) sample))) ;;;
      io (fclose fp) ;;;
      ret tt
  end.

(** The build without ENABLE_THREAD_TIMING: [thread_timing.h] gives the
    five functions empty inline bodies, and there is no recorder state. *)
Module Disabled.

Definition setOutputPath (path : string) : State world unit := ret tt.
Definition setRunLabel (label : string) : State world unit := ret tt.
Definition beginRun (numThreads : Z) : State world unit := ret tt.
Definition recordSample (threadId : Z) (startSeconds endSeconds : float)
  : State world unit := ret tt.
Definition endRun : State world unit := ret tt.

Definition exec_call (c : call) : State world unit :=
  match c with
  | SetOutputPath path => setOutputPath path
  | SetRunLabel label => setRunLabel label
  | BeginRun n => beginRun n
  | RecordSample t s e => recordSample t s e
  | EndRun => endRun
  end.

Definition exec (cs : list call) : State world unit := for_each cs exec_call.

End Disabled.

(** Number of occurrences of the character [c]. *)
Fixpoint count_char (c : ascii) (s : string) : nat :=
  match s with
  | EmptyString => O
  | String c' s' => (if Ascii.eqb c' c then 1 else 0)%nat + count_char c s'
  end.

(** Does the string hold the character [c]? *)
Fixpoint has_char (c : ascii) (s : string) : bool :=
  match s with
  | EmptyString => false
  | String c' s' => Ascii.eqb c' c || has_char c s'
  end.

(** The text before the first occurrence of the character [c]. *)
Fixpoint before_char (c : ascii) (s : string) : string :=
  match s with
  | EmptyString => EmptyString
  | String c' s' => if Ascii.eqb c' c then EmptyString else String c' (before_char c s')
  end.

(** The buffer after a client that started with the buffer [b0]. *)
Fixpoint buffer_after (b0 : list Sample) (cs : list call) : list Sample :=
  match cs with
  | [] => b0
  | BeginRun _ :: cs' => buffer_after [] cs'
  | RecordSample t s e :: cs' => buffer_after (b0 ++ [sample_of t s e]) cs'
  | _ :: cs' => buffer_after b0 cs'
  end.

(** The thread count after a client that started with [n0]. *)
Fixpoint threads_after (n0 : Z) (cs : list call) : Z :=
  match cs with
  | [] => n0
  | BeginRun n :: cs' => threads_after n cs'
  | _ :: cs' => threads_after n0 cs'
  end.

Definition is_endRun (c : call) : bool :=
  match c with
  | EndRun => true
  | _ => false
  end.

Definition is_setOutputPath (c : call) : bool :=
  match c with
  | SetOutputPath _ => true
  | _ => false
  end.

(** One run of a client: the thread count it declares and the calls it
    makes between [beginRun] and [endRun]. *)
Definition run_calls (r : Z * list call) : list call :=
  BeginRun r.1 :: r.2 ++ [EndRun].

(** A client that makes one run after the other. *)
Definition session (runs : list (Z * list call)) : list call :=
  flat_map run_calls runs.

(** A run body that records and relabels but leaves the output path alone. *)
Definition plain_body (cs : list call) : bool :=
  forallb (fun c => inside_run c && negb (is_setOutputPath c)) cs.

(** The rows of the runs of a session, for a process that has begun [rid]
    runs and holds the label [lbl]. *)
Fixpoint session_rows (rid : Z) (lbl : string) (runs : list (Z * list call)) : string :=
  match runs with
  | [] => ""
  | r :: rest =>
      concat_strings (map (row (rid + 1) (last_label lbl r.2) r.1) (recorded r.2))
      +:+ session_rows (rid + 1) (last_label lbl r.2) rest
  end.

(** The output file can be read and appended to, or is absent and will be
    created so. *)
Definition friendly_output (m : machine) : bool :=
  match files (w m) !! resolve (w m) (c_str (outputPath (g m))) with
  | Some (Regular r a _) => r && a
  | Some (Blocked _) => false
  | None => creat_readable (w m) && creat_appendable (w m)
  end.

Definition is_nil (s : string) : bool :=
  match s with
  | EmptyString => true
  | String _ _ => false
  end.

(** ** Strings and formatting *)

Lemma append_nil_l (s : string) : "" +:+ s = s.
Proof. reflexivity. Qed.

Lemma append_cons (c : ascii) (s t : string) : String c s +:+ t = String c (s +:+ t).
Proof. reflexivity. Qed.

Lemma append_nil_r (s : string) : s +:+ "" = s.
Proof. induction s as [|c s IH]; [done | by rewrite append_cons, IH]. Qed.

Lemma append_assoc (s t u : string) : (s +:+ t) +:+ u = s +:+ (t +:+ u).
Proof. induction s as [|c s IH]; [done | by rewrite !append_cons, IH]. Qed.

Lemma count_lines_app (s t : string) :
  count_lines (s +:+ t) = (count_lines s + count_lines t)%nat.
Proof.
  induction s as [|c s IH]; [done |].
  rewrite append_cons. simpl. rewrite IH. lia.
Qed.

Lemma concat_strings_app (l l' : list string) :
  concat_strings (l ++ l') = concat_strings l +:+ concat_strings l'.
Proof.
  induction l as [|s l IH]; simpl; [done |].
  by rewrite IH, append_assoc.
Qed.

Lemma count_lines_uint (d : uint) : count_lines (NilEmpty.string_of_uint d) = O.
Proof. induction d; simpl; done. Qed.

Lemma count_lines_fmt_u (d : uint) : count_lines (NilZero.string_of_uint d) = O.
Proof. destruct d; try apply count_lines_uint; done. Qed.

Lemma count_lines_fmt_d (z : Z) : count_lines (fmt_d z) = O.
Proof.
  unfold fmt_d, NilZero.string_of_int.
  destruct (Z.to_int z); simpl; by rewrite count_lines_fmt_u.
Qed.

Lemma count_lines_zeros (n : nat) : count_lines (zeros n) = O.
Proof. induction n; simpl; done. Qed.

Lemma count_lines_fmt_0u (k : nat) (z : Z) : count_lines (fmt_0u k z) = O.
Proof.
  unfold fmt_0u. by rewrite count_lines_app, count_lines_zeros, count_lines_fmt_u.
Qed.

Lemma count_lines_fmt_f6 (x : float) : count_lines (fmt_f6 x) = O.
Proof.
  unfold fmt_f6.
  destruct (Prim2SF x) as [s|s| |s m e]; try destruct s; simpl;
    rewrite ?count_lines_app, ?count_lines_fmt_d, ?count_lines_fmt_0u; done.
Qed.

(** A row is one line of text, unless the label brings line breaks of its own. *)
Lemma count_lines_row (rid : Z) (lbl : string) (nt : Z) (smp : Sample) :
  count_lines (row rid lbl nt smp) = S (count_lines (c_str lbl)).
Proof.
  unfold row.
  rewrite !count_lines_app, !count_lines_fmt_d, !count_lines_fmt_f6. simpl. lia.
Qed.

Lemma count_lines_rows (rid : Z) (lbl : string) (nt : Z) (l : list Sample) :
  count_lines (c_str lbl) = O ->
  count_lines (concat_strings (map (row rid lbl nt) l)) = length l.
Proof.
  intros Hl. induction l as [|smp l IH]; simpl; [done |].
  rewrite count_lines_app, count_lines_row, Hl, IH. done.
Qed.

(** ** The C library calls *)

Lemma append_data_app (t u : string) (n : node) :
  append_data u (append_data t n) = append_data (t +:+ u) n.
Proof. destruct n; simpl; [by rewrite append_assoc | done]. Qed.

Lemma append_data_nil (n : node) : append_data "" n = n.
Proof. destruct n; simpl; [by rewrite append_nil_r | done]. Qed.

Lemma fprintf_fprintf (t u : string) (fp : FILE) (w0 : world) :
  (fprintf fp u (fprintf fp t w0).2).2 = (fprintf fp (t +:+ u) w0).2.
Proof.
  unfold fprintf, modify, set_files; simpl. f_equal.
  rewrite alter_alter_eq. apply alter_ext. intros n _. apply append_data_app.
Qed.

Lemma fprintf_nil (fp : FILE) (w0 : world) : (fprintf fp "" w0).2 = w0.
Proof.
  destruct w0 as [rs fs cr ca er se]. unfold fprintf, modify, set_files; simpl. f_equal.
  apply alter_id. intros n _. apply append_data_nil.
Qed.

(** The loop of [endRun] writes the concatenation of its rows. *)
Lemma for_each_fprintf {A} (f : A -> string) (fp : FILE) (l : list A) (m : machine) :
  for_each l (fun x => io (fprintf fp (f x))) m =
  (tt, mkMachine (g m) (fprintf fp (concat_strings (map f l)) (w m)).2).
Proof.
  revert m. induction l as [|x l IH]; intros [g0 w0]; cbn [for_each map concat_strings g w].
  - unfold ret. by rewrite fprintf_nil.
  - unfold bind, io at 1. cbn [g w].
    destruct (fprintf fp (f x) w0) as [u w1] eqn:E.
    rewrite IH. cbn [g w].
    assert (w1 = (fprintf fp (f x) w0).2) as -> by (by rewrite E).
    by rewrite fprintf_fprintf.
Qed.

(** [fopen] in append mode, by what the path denotes. *)
Lemma fopen_append (p : string) (w0 : world) :
  fopen p "a" w0 =
  match files w0 !! resolve w0 p with
  | None =>
      (Some (mkFILE (resolve w0 p) 0),
       set_files <[resolve w0 p := Regular (creat_readable w0) (creat_appendable w0) ""]> w0)
  | Some (Blocked e) => (None, set_errno e w0)
  | Some (Regular _ a _) =>
      if a then (Some (mkFILE (resolve w0 p) 0), w0) else (None, set_errno EACCES w0)
  end.
Proof.
  unfold fopen, bind, gets, id; simpl.
  destruct (files w0 !! resolve w0 p) as [[r [] d|e]|]; reflexivity.
Qed.

(** [fileHasContent], by what the path denotes: it answers [true] for a
    readable file of at least one byte, and [false] for every other name. *)
Lemma fileHasContent_eq (path : string) (w0 : world) :
  fileHasContent path w0 =
  match files w0 !! resolve w0 (c_str path) with
  | None => (false, set_errno ENOENT w0)
  | Some (Blocked e) => (false, set_errno e w0)
  | Some (Regular r _ data) =>
      if r then (negb (String.eqb data ""), w0) else (false, set_errno EACCES w0)
  end.
Proof.
  unfold fileHasContent, fopen, fgetc, fclose, bind, gets, id; simpl.
  destruct (files w0 !! resolve w0 (c_str path)) as [[[] a d|e]|] eqn:E; simpl; try reflexivity.
  rewrite E. destruct d as [|c d]; simpl; [reflexivity |].
  unfold ret. f_equal. unfold EOF. destruct (N_of_ascii c); reflexivity.
Qed.

Lemma run_bind {S A B} (c : State S A) (k : A -> State S B) (s : S) :
  bind c k s = k (c s).1 (c s).2.
Proof. unfold bind. by destruct (c s). Qed.

Lemma run_io {A} (c : State world A) (m : machine) :
  io c m = ((c (w m)).1, mkMachine (g m) (c (w m)).2).
Proof. unfold io. by destruct (c (w m)). Qed.

Ltac run_step :=
  repeat (rewrite ?run_bind, ?run_io; unfold gets, ret; cbn [fst snd g w]).

(** [endRun] in one piece: the recorder's state is handed back as it was,
    and the world is what the C library calls leave. *)
Lemma endRun_eq (m : machine) :
  endRun m =
  (tt,
   if empty (samples (g m)) then m
   else
     let probe := fileHasContent (outputPath (g m)) (w m) in
     let opened := fopen (c_str (outputPath (g m))) "a" probe.2 in
     match opened.1 with
     | None => mkMachine (g m) (perror "thread_timings fopen" opened.2).2
     | Some fp =>
         mkMachine (g m)
           (fprintf fp ((if probe.1 then "" else header) +:+ concat_strings (rows_of (g m)))
                    opened.2).2
     end).
Proof.
  destruct m as [g0 w0]. unfold endRun, state. run_step.
  destruct (empty (samples g0)); [reflexivity |]. run_step.
  destruct (fopen (c_str (outputPath g0)) "a" (fileHasContent (outputPath g0) w0).2)
    as [[fp|] w2]; cbn [fst snd].
  - unfold rows_of.
    destruct (fileHasContent (outputPath g0) w0).1; cbn [negb]; run_step.
    + rewrite for_each_fprintf. run_step. by rewrite append_nil_l.
    + rewrite for_each_fprintf. run_step. by rewrite fprintf_fprintf.
  - run_step. by destruct (perror _ _).1.
Qed.

Lemma empty_false {A} (l : list A) : l <> [] -> empty l = false.
Proof. by destruct l. Qed.

Lemma alter_append (fs : gmap string node) (p : string) (r a : bool) (d t : string) :
  fs !! p = Some (Regular r a d) ->
  alter (append_data t) p fs = <[p := Regular r a (d +:+ t)]> fs.
Proof.
  intros E. apply map_eq; intros q. destruct (decide (q = p)) as [->|].
  - by rewrite lookup_alter_eq, lookup_insert_eq, E.
  - by rewrite lookup_alter_ne, lookup_insert_ne.
Qed.

(** The world after [endRun] with a non-empty buffer, by what the output
    path denotes. *)
Lemma endRun_world (m : machine) :
  samples (g m) <> [] ->
  run_state endRun m =
  mkMachine (g m)
    (let p := resolve (w m) (c_str (outputPath (g m))) in
     match files (w m) !! p with
     | None =>
         set_files
           <[p := Regular (creat_readable (w m)) (creat_appendable (w m))
                          (flush_text true (g m))]>
           (set_errno ENOENT (w m))
     | Some (Blocked e) => write_stderr (diagnostic e) (set_errno e (w m))
     | Some (Regular r a data) =>
         if a then
           set_files
             <[p := Regular r a
                      (data +:+ flush_text (negb (r && negb (String.eqb data ""))) (g m))]>
             (if r then w m else set_errno EACCES (w m))
         else write_stderr (diagnostic EACCES) (set_errno EACCES (w m))
     end).
Proof.
  intros Hne. unfold run_state. rewrite endRun_eq, (empty_false _ Hne).
  cbn [snd]. cbv zeta. rewrite fileHasContent_eq. f_equal.
  destruct m as [g0 [rs fs cr ca er se]]; cbn [g w files resolve].
  destruct (fs !! rs (c_str (outputPath g0))) as [[r a d|e]|] eqn:E.
  - destruct r; cbn [fst snd]; rewrite fopen_append; cbn [files resolve set_errno];
      rewrite E; destruct a; cbn [fst snd andb negb]; try reflexivity;
      unfold fprintf, modify, set_files, flush_text;
      cbn [fst snd files resolve f_path];
      rewrite (alter_append _ _ _ _ _ _ E); try reflexivity.
    by destruct (String.eqb d "").
  - cbn [fst snd]. rewrite fopen_append. cbn [files resolve set_errno]. rewrite E.
    reflexivity.
  - cbn [fst snd]. rewrite fopen_append. cbn [files resolve set_errno]. rewrite E.
    unfold fprintf, modify, set_files, flush_text; cbn [fst snd files resolve f_path].
    by rewrite alter_insert_eq.
Qed.

(** [endRun] leaves the resolution of names alone. *)
Lemma endRun_resolve (m : machine) :
  resolve (w (run_state endRun m)) = resolve (w m).
Proof.
  destruct (samples (g m)) as [|smp smps] eqn:E.
  - unfold run_state. by rewrite endRun_eq, E.
  - assert (samples (g m) <> []) as Hne by (by rewrite E).
    rewrite (endRun_world _ Hne). cbv zeta. cbn [w].
    by destruct (files (w m) !! resolve (w m) (c_str (outputPath (g m))))
      as [[[] [] d|e]|].
Qed.

(** ** The calls, one by one *)

Lemma beginRun_eq (n : Z) (m : machine) :
  beginRun n m =
  (tt, mkMachine
         (mkGlobalState (pre_incr (runCounter (g m))) n (pre_incr (runCounter (g m)))
                        (label (g m)) (outputPath (g m)) [])
         (w m)).
Proof. reflexivity. Qed.

Lemma recordSample_eq (t : Z) (s e : float) (m : machine) :
  recordSample t s e m =
  (tt, mkMachine (set_samples (samples (g m) ++ [sample_of t s e]) (g m)) (w m)).
Proof. reflexivity. Qed.

Lemma endRun_state (m : machine) : g (run_state endRun m) = g m.
Proof.
  unfold run_state. rewrite endRun_eq. cbn [snd].
  destruct (empty (samples (g m))); [done |]. cbv zeta.
  by destruct (fopen _ _ _).1.
Qed.

Lemma endRun_nothing (m : machine) : samples (g m) = [] -> endRun m = (tt, m).
Proof. intros E. by rewrite endRun_eq, E. Qed.

(** Opening for appending fails exactly at a blocked name and at a file
    without write permission. *)
Lemma append_failure_eq (m : machine) :
  append_failure m =
  match files (w m) !! resolve (w m) (c_str (outputPath (g m))) with
  | None => None
  | Some (Blocked e) => Some e
  | Some (Regular _ a _) => if a then None else Some EACCES
  end.
Proof.
  unfold append_failure. rewrite fopen_append.
  by destruct (files (w m) !! _) as [[r [] d|e]|].
Qed.

Lemma output_has_content_eq (m : machine) :
  output_has_content m =
  match files (w m) !! resolve (w m) (c_str (outputPath (g m))) with
  | Some (Regular r _ data) => r && negb (String.eqb data "")
  | _ => false
  end.
Proof.
  unfold output_has_content. rewrite fileHasContent_eq.
  by destruct (files (w m) !! _) as [[[] a d|e]|].
Qed.

(** A flush that opens its file appends the header, if [fileHasContent]
    found nothing, and then the rows; permissions stay as they are. *)
Lemma endRun_appends (m : machine) :
  samples (g m) <> [] ->
  append_failure m = None ->
  files (w (run_state endRun m)) !! resolve (w m) (c_str (outputPath (g m))) =
    Some (Regular (output_perms m).1 (output_perms m).2
            (output_text m +:+ flush_text (negb (output_has_content m)) (g m)))
  /\ stderr (w (run_state endRun m)) = stderr (w m).
Proof.
  intros Hne Hopen. rewrite (endRun_world _ Hne). cbv zeta.
  rewrite append_failure_eq in Hopen.
  unfold output_text, file_data, output_perms. rewrite output_has_content_eq. cbn [g w].
  destruct (files (w m) !! resolve (w m) (c_str (outputPath (g m)))) as [[r a d|e]|] eqn:E; [| done |].
  - destruct a; [| done]. cbn [default fst snd].
    split; [by destruct r; cbn; rewrite lookup_insert_eq | by destruct r].
  - cbn [default negb fst snd]. split; [by cbn; rewrite lookup_insert_eq | done].
Qed.

Lemma output_text_flushed (m : machine) :
  samples (g m) <> [] ->
  append_failure m = None ->
  output_text (run_state endRun m) =
  output_text m +:+ flush_text (negb (output_has_content m)) (g m).
Proof.
  intros Hne Hopen. destruct (endRun_appends m Hne Hopen) as [E _].
  unfold output_text at 1, file_data. by rewrite endRun_state, endRun_resolve, E.
Qed.

(** ** Clients *)

Lemma exec_cons (c : call) (cs : list call) (m : machine) :
  run_state (exec (c :: cs)) m = run_state (exec cs) (run_state (exec_call c) m).
Proof. unfold run_state, exec. cbn [for_each]. by rewrite run_bind. Qed.

Lemma exec_app (cs cs' : list call) (m : machine) :
  run_state (exec (cs ++ cs')) m = run_state (exec cs') (run_state (exec cs) m).
Proof.
  revert m. induction cs as [|c cs IH]; intros m; [done |].
  by rewrite <- app_comm_cons, !exec_cons, IH.
Qed.

(** Between [beginRun] and [endRun] a client only moves the label and the
    path and grows the buffer; the world is not touched. *)
Lemma exec_inside_run (cs : list call) (m : machine) :
  forallb inside_run cs = true ->
  run_state (exec cs) m =
  mkMachine
    (mkGlobalState (runId (g m)) (numThreads (g m)) (runCounter (g m))
                   (last_label (label (g m)) cs) (last_path (outputPath (g m)) cs)
                   (samples (g m) ++ recorded cs))
    (w m).
Proof.
  revert m. induction cs as [|c cs IH]; intros [[rid nt rc lbl path smps] w0] Hin.
  - cbn. by rewrite app_nil_r.
  - cbn [forallb] in Hin. apply andb_prop in Hin as [Hc Hcs].
    rewrite exec_cons, (IH _ Hcs).
    destruct c; try discriminate Hc; cbn; try reflexivity.
    by rewrite <- app_assoc.
Qed.

Lemma length_recorded (cs : list call) : length (recorded cs) = count_record cs.
Proof. induction cs as [|[] cs IH]; cbn; by rewrite ?IH. Qed.

Lemma count_begin_nonneg (cs : list call) : 0 <= count_begin cs.
Proof. induction cs as [|[] cs IH]; cbn [count_begin]; lia. Qed.

Lemma count_begin_app (cs cs' : list call) :
  count_begin (cs ++ cs') = count_begin cs + count_begin cs'.
Proof. induction cs as [|[] cs IH]; cbn [count_begin app]; lia. Qed.

Lemma count_begin_repeat (n : Z) (k : nat) :
  count_begin (repeat (BeginRun n) k) = Z.of_nat k.
Proof. induction k as [|k IH]; cbn [count_begin repeat]; lia. Qed.

Lemma pre_incr_small (x : Z) : 0 <= x < INT_MAX -> pre_incr x = x + 1.
Proof.
  unfold pre_incr, wrap_int, INT_MAX. intros Hx.
  rewrite Z.mod_small; lia.
Qed.

(** Every call leaves [runId] equal to [runCounter] if it found them so. *)
Lemma exec_call_runId (c : call) (m : machine) :
  runId (g m) = runCounter (g m) ->
  runId (g (run_state (exec_call c) m)) = runCounter (g (run_state (exec_call c) m)).
Proof.
  destruct c; cbn [exec_call]; try (intros E; exact E); [done |].
  by rewrite endRun_state.
Qed.

Lemma exec_call_runCounter (c : call) (m : machine) :
  runCounter (g (run_state (exec_call c) m)) =
  match c with
  | BeginRun _ => pre_incr (runCounter (g m))
  | _ => runCounter (g m)
  end.
Proof. destruct c; cbn [exec_call]; try reflexivity. by rewrite endRun_state. Qed.

Lemma exec_runId (cs : list call) (m : machine) :
  runId (g m) = runCounter (g m) ->
  runId (g (run_state (exec cs) m)) = runCounter (g (run_state (exec cs) m)).
Proof.
  revert m. induction cs as [|c cs IH]; intros m E; [exact E |].
  rewrite exec_cons. by apply IH, exec_call_runId.
Qed.

(** While the counter stays below [INT_MAX] it counts the [beginRun] calls. *)
Lemma exec_runCounter (cs : list call) (m : machine) :
  0 <= runCounter (g m) ->
  runCounter (g m) + count_begin cs <= INT_MAX ->
  runCounter (g (run_state (exec cs) m)) = runCounter (g m) + count_begin cs.
Proof.
  revert m. induction cs as [|c cs IH]; intros m Hlo Hhi.
  - cbn. lia.
  - rewrite exec_cons. pose proof (count_begin_nonneg cs) as Hcs.
    pose proof (exec_call_runCounter c m) as Hc.
    destruct c; cbn [count_begin] in *; rewrite IH; rewrite ?Hc; try lia.
    all: rewrite pre_incr_small; lia.
Qed.

(** ** Properties of the run life cycle *)

(** C10: [endRun] never modifies the recorder state.  Whatever path it
    takes (empty buffer, failed open, successful flush), [runId],
    [numThreads], [runCounter], [label], [outputPath] and the sample
    buffer are exactly what they were before the call. *)
Theorem endRun_preserves_recorder_state (m : machine) :
  let m' := run_state endRun m in
  g m' = g m /\
  runId (g m') = runId (g m) /\
  numThreads (g m') = numThreads (g m) /\
  runCounter (g m') = runCounter (g m) /\
  label (g m') = label (g m) /\
  outputPath (g m') = outputPath (g m) /\
  samples (g m') = samples (g m).
Proof. cbv zeta. by rewrite endRun_state. Qed.

(** C4: [endRun] on an empty sample buffer returns at once and leaves the
    whole world as it was: no file is created or written, in particular
    not the output file and no header, and nothing is reported on
    [stderr]. *)
Theorem endRun_empty_buffer_writes_nothing (m : machine) :
  samples (g m) = [] ->
  endRun m = (tt, m) /\
  files (w (run_state endRun m)) = files (w m) /\
  stderr (w (run_state endRun m)) = stderr (w m) /\
  (file_data (w m) (c_str (outputPath (g m))) = None ->
   file_data (w (run_state endRun m)) (c_str (outputPath (g m))) = None).
Proof.
  intros E. unfold run_state. rewrite (endRun_nothing _ E). done.
Qed.

Lemma endRun_empty_buffer_writes_nothing_witness :
  samples (g (run_state (beginRun 4) (boot fresh_world))) = [] /\
  file_data (w (run_state endRun (run_state (beginRun 4) (boot fresh_world))))
            "thread_timings.csv" = None.
Proof.
  split; [reflexivity |].
  apply (endRun_empty_buffer_writes_nothing (run_state (beginRun 4) (boot fresh_world)));
    reflexivity.
Defined.

(** C5: when the buffer holds samples and opening the output file for
    appending fails with the system error [e], [endRun] prints the line
    "thread_timings fopen: <message of e>" on [stderr], returns normally,
    writes to no file, and leaves the recorder state, shared buffer
    included, as it was: the snapshot it took is gone with the call. *)
Theorem endRun_open_failure_reports_and_drops (m : machine) (e : errno_t) :
  samples (g m) <> [] ->
  append_failure m = Some e ->
  let m' := run_state endRun m in
  endRun m = (tt, m') /\
  stderr (w m') = stderr (w m) +:+ "thread_timings fopen: " +:+ strerror e +:+ String newline "" /\
  files (w m') = files (w m) /\
  g m' = g m.
Proof.
  intros Hne Hfail. cbv zeta. split; [| split; [| split]].
  - unfold run_state. by rewrite endRun_eq.
  - rewrite (endRun_world _ Hne). cbv zeta. rewrite append_failure_eq in Hfail.
    destruct (files (w m) !! resolve (w m) (c_str (outputPath (g m)))) as [[r [] d|e']|]; try done.
    + by injection Hfail as <-.
    + by injection Hfail as <-.
  - rewrite (endRun_world _ Hne). cbv zeta. rewrite append_failure_eq in Hfail.
    by destruct (files (w m) !! resolve (w m) (c_str (outputPath (g m)))) as [[r [] d|e']|].
  - apply endRun_state.
Qed.

Lemma endRun_open_failure_reports_and_drops_witness :
  let m := run_state (exec [SetOutputPath "out/t.csv"; BeginRun 2; RecordSample 0 1 2])
                     (boot no_directory_world) in
  stderr (w (run_state endRun m)) =
    "" +:+ "thread_timings fopen: " +:+ "No such file or directory" +:+ String newline "" /\
  files (w (run_state endRun m)) = files (w m) /\
  samples (g (run_state endRun m)) = [sample_of 0 1 2].
Proof.
  cbv zeta.
  destruct (endRun_open_failure_reports_and_drops
              (run_state (exec [SetOutputPath "out/t.csv"; BeginRun 2; RecordSample 0 1 2])
                         (boot no_directory_world)) ENOENT)
    as (_ & Herr & Hfiles & Hg).
  - discriminate.
  - vm_compute. reflexivity.
  - split; [exact Herr | split; [exact Hfiles |]]. rewrite Hg. reflexivity.
Defined.

(** One run: [beginRun n], then calls [cs] that neither begin nor end a
    run, then [endRun]. *)
Section Run.

Variables (m : machine) (n : Z) (cs : list call).
Hypothesis within : forallb inside_run cs = true.

Let m2 : machine := run_state (exec cs) (run_state (beginRun n) m).

(** The recorder just before [endRun]. *)
Lemma run_buffer :
  samples (g m2) = recorded cs /\
  label (g m2) = last_label (label (g m)) cs /\
  numThreads (g m2) = n /\
  runId (g m2) = pre_incr (runCounter (g m)) /\
  w m2 = w m.
Proof.
  unfold m2. rewrite (exec_inside_run _ _ within).
  unfold run_state. rewrite beginRun_eq. done.
Qed.

(** What [endRun] appends, when its file opens. *)
Lemma run_flush :
  append_failure m2 = None ->
  exists hdr : string,
    (hdr = "" \/ hdr = header) /\
    output_text (run_state endRun m2) =
      output_text m2 +:+ hdr +:+
      concat_strings
        (map (row (runId (g m2)) (last_label (label (g m)) cs) n) (recorded cs)).
Proof.
  intros Hopen. destruct run_buffer as (Hs & Hl & Hn & _).
  destruct (recorded cs) as [|smp smps] eqn:E.
  - exists "". split; [by left |].
    unfold run_state. rewrite (endRun_nothing _ Hs). cbn [snd map concat_strings].
    by rewrite append_nil_l, append_nil_r.
  - assert (samples (g m2) <> []) as Hne by (by rewrite Hs).
    exists (if output_has_content m2 then "" else header). split.
    + destruct (output_has_content m2); [by left | by right].
    + rewrite (output_text_flushed _ Hne Hopen).
      unfold flush_text, rows_of. rewrite Hs, Hl, Hn.
      by destruct (output_has_content m2).
Qed.

End Run.

(** C1: for every sequence of calls made between one [beginRun] and the
    following [endRun] (recordSample calls, possibly with label or path
    changes in between), if the output file opens in [endRun], the text
    appended to the file is an optional header followed by exactly one row
    per [recordSample] call, in call order: the number of rows equals the
    number of [recordSample] calls, and, when the label brings no line
    break of its own, so does the number of text lines they occupy. *)
Theorem endRun_appends_one_row_per_sample (m : machine) (n : Z) (cs : list call) :
  forallb inside_run cs = true ->
  let m2 := run_state (exec cs) (run_state (beginRun n) m) in
  append_failure m2 = None ->
  exists (hdr : string) (rows : list string),
    (hdr = "" \/ hdr = header) /\
    output_text (run_state endRun m2) = output_text m2 +:+ hdr +:+ concat_strings rows /\
    rows = map (row (runId (g m2)) (label (g m2)) n) (recorded cs) /\
    length rows = count_record cs /\
    (count_lines (c_str (label (g m2))) = O ->
     count_lines (concat_strings rows) = count_record cs).
Proof.
  intros Hin m2 Hopen.
  destruct (run_flush m n cs Hin Hopen) as (hdr & Hhdr & Htext).
  destruct (run_buffer m n cs Hin) as (_ & Hl & _). fold m2 in Hl.
  exists hdr, (map (row (runId (g m2)) (label (g m2)) n) (recorded cs)).
  split; [exact Hhdr |]. split; [by rewrite Hl |]. split; [done |].
  split; [by rewrite length_map, length_recorded |].
  intros Hlbl. by rewrite count_lines_rows, length_recorded.
Qed.

Lemma endRun_appends_one_row_per_sample_witness :
  let cs := [RecordSample 0 1 1.0025; RecordSample 1 0.1 0.3; RecordSample 2 0.5 0.25] in
  let m2 := run_state (exec cs) (run_state (beginRun 4) (boot fresh_world)) in
  exists (hdr : string) (rows : list string),
    (hdr = "" \/ hdr = header) /\
    output_text (run_state endRun m2) = output_text m2 +:+ hdr +:+ concat_strings rows /\
    rows = map (row (runId (g m2)) (label (g m2)) 4) (recorded cs) /\
    length rows = 3%nat /\
    (count_lines (c_str (label (g m2))) = O -> count_lines (concat_strings rows) = 3%nat).
Proof.
  cbv zeta.
  apply (endRun_appends_one_row_per_sample (boot fresh_world) 4
           [RecordSample 0 1 1.0025; RecordSample 1 0.1 0.3; RecordSample 2 0.5 0.25]);
    reflexivity.
Defined.

(** C7: every row written for a run carries the label current when
    [endRun] executes.  Whatever [setRunLabel] calls are interleaved with
    the [recordSample] calls of the run, the label in the recorder at
    [endRun] is the last one set, and the text appended is, after the
    optional header line, for each sample in call order the line
    "<run id>,<that label>,<thread count>,<thread id>,<start>,<end>,<duration>":
    the second field of every row is the label of [endRun] time (as a C
    string), never the label that was current when the sample was
    recorded. *)
Theorem rows_carry_label_current_at_endRun (m : machine) (n : Z) (cs : list call) :
  forallb inside_run cs = true ->
  let m2 := run_state (exec cs) (run_state (beginRun n) m) in
  append_failure m2 = None ->
  label (g m2) = last_label (label (g m)) cs /\
  exists hdr : string,
    (hdr = "" \/
     hdr = line "run_id,label,num_threads,thread_id,start_ms,end_ms,duration_ms") /\
    output_text (run_state endRun m2) =
      output_text m2 +:+ hdr +:+
      concat_strings
        (map (fun smp : Sample =>
                fmt_d (runId (g m2)) +:+ "," +:+
                c_str (last_label (label (g m)) cs) +:+ "," +:+
                fmt_d n +:+ "," +:+
                fmt_d (threadId smp) +:+ "," +:+
                fmt_f6 (startMs smp) +:+ "," +:+
                fmt_f6 (endMs smp) +:+ "," +:+
                fmt_f6 (durationMs smp) +:+ String newline "")
             (recorded cs)).
Proof.
  intros Hin m2 Hopen. split.
  - by destruct (run_buffer m n cs Hin) as (_ & Hl & _).
  - destruct (run_flush m n cs Hin Hopen) as (hdr & Hhdr & Htext).
    exists hdr. split; [exact Hhdr |]. exact Htext.
Qed.

Lemma rows_carry_label_current_at_endRun_witness :
  let cs := [SetRunLabel "early"; RecordSample 0 1 1.0025;
             SetRunLabel "late"; RecordSample 1 2 3] in
  let m2 := run_state (exec cs) (run_state (beginRun 2) (boot fresh_world)) in
  label (g m2) = "late" /\
  output_text (run_state endRun m2) =
    line "run_id,label,num_threads,thread_id,start_ms,end_ms,duration_ms"
    +:+ line "1,late,2,0,1000.000000,1002.500000,2.500000"
    +:+ line "1,late,2,1,2000.000000,3000.000000,1000.000000".
Proof.
  cbv zeta.
  destruct (rows_carry_label_current_at_endRun (boot fresh_world) 2
              [SetRunLabel "early"; RecordSample 0 1 1.0025;
               SetRunLabel "late"; RecordSample 1 2 3])
    as (Hl & hdr & Hhdr & Htext); [reflexivity | reflexivity |].
  split; [exact Hl |].
  rewrite Htext. destruct Hhdr as [-> | ->].
  - exfalso.
    assert (output_text
              (run_state endRun
                 (run_state (exec [SetRunLabel "early"; RecordSample 0 1 1.0025;
                                   SetRunLabel "late"; RecordSample 1 2 3])
                            (run_state (beginRun 2) (boot fresh_world)))) =
            line "run_id,label,num_threads,thread_id,start_ms,end_ms,duration_ms"
            +:+ line "1,late,2,0,1000.000000,1002.500000,2.500000"
            +:+ line "1,late,2,1,2000.000000,3000.000000,1000.000000") as Hreal
      by (vm_compute; reflexivity).
    rewrite Htext in Hreal. vm_compute in Hreal. discriminate Hreal.
  - vm_compute. reflexivity.
Defined.

Lemma append_eq_nil (s t : string) : s +:+ t = "" -> s = "" /\ t = "".
Proof. by destruct s. Qed.

Lemma row_nonempty (rid : Z) (lbl : string) (nt : Z) (smp : Sample) :
  row rid lbl nt smp <> "".
Proof. unfold row. intros H. by apply append_eq_nil in H as [_ H]. Qed.

Lemma flush_text_nonempty (b : bool) (s : GlobalState) :
  samples s <> [] -> flush_text b s <> "".
Proof.
  unfold flush_text, rows_of. destruct (samples s) as [|smp smps]; [done |].
  intros _ H. apply append_eq_nil in H as [_ H]. cbn [map concat_strings] in H.
  apply append_eq_nil in H as [H _]. by apply row_nonempty in H.
Qed.

(** After a flush the output file holds text [fileHasContent] can see,
    unless the file cannot be read. *)
Lemma output_has_content_flushed (m : machine) :
  samples (g m) <> [] ->
  append_failure m = None ->
  output_has_content (run_state endRun m) = (output_perms m).1.
Proof.
  intros Hne Hopen. destruct (endRun_appends m Hne Hopen) as [E _].
  rewrite output_has_content_eq, endRun_state, endRun_resolve, E.
  destruct (output_perms m).1; [| done]. cbn [andb].
  destruct (String.eqb_spec (output_text m +:+ flush_text (negb (output_has_content m)) (g m)) "")
    as [H|H]; [| done].
  apply append_eq_nil in H as [_ H]. by apply flush_text_nonempty in H.
Qed.

Lemma only_beginRun_clears (c : call) (m : machine) :
  samples (g m) <> [] ->
  samples (g (run_state (exec_call c) m)) = [] ->
  exists n, c = BeginRun n.
Proof.
  intros Hne Hclear. destruct c as [p|l|n|t s e|]; cbn [exec_call] in Hclear.
  - done.
  - done.
  - by exists n.
  - cbn in Hclear. by apply app_eq_nil in Hclear as [_ ?].
  - by rewrite endRun_state in Hclear.
Qed.

(** C8: [endRun] never clears the live sample buffer; of all the calls
    only [beginRun] empties it, and [beginRun] also stores the thread
    count and the new run id.  So a second [endRun] with a non-empty
    buffer and no [beginRun] in between appends, when both opens succeed,
    the same rows to the file a second time. *)
Theorem endRun_keeps_buffer_and_reflushes (m : machine) :
  let m1 := run_state endRun m in
  let m2 := run_state endRun m1 in
  samples (g m1) = samples (g m) /\
  (forall n, let b := run_state (beginRun n) m in
             samples (g b) = [] /\ numThreads (g b) = n /\
             runId (g b) = pre_incr (runCounter (g m))) /\
  (forall c, samples (g m) <> [] ->
             samples (g (run_state (exec_call c) m)) = [] -> exists n, c = BeginRun n) /\
  (samples (g m) <> [] ->
   append_failure m = None ->
   append_failure m1 = None ->
   samples (g m2) = samples (g m) /\
   exists h1 h2 : string,
     (h1 = "" \/ h1 = header) /\ (h2 = "" \/ h2 = header) /\
     output_text m2 =
       output_text m +:+ (h1 +:+ concat_strings (rows_of (g m)))
                     +:+ (h2 +:+ concat_strings (rows_of (g m)))).
Proof.
  intros m1 m2.
  assert (g m1 = g m) as Hg1 by apply endRun_state.
  assert (g m2 = g m) as Hg2 by (unfold m2; by rewrite endRun_state).
  split; [by rewrite Hg1 |]. split; [done |].
  split; [intros c; by apply only_beginRun_clears |].
  intros Hne Hopen Hopen1. split; [by rewrite Hg2 |].
  assert (samples (g m1) <> []) as Hne1 by (by rewrite Hg1).
  exists (if output_has_content m then "" else header),
         (if output_has_content m1 then "" else header).
  split; [destruct (output_has_content m); auto |].
  split; [destruct (output_has_content m1); auto |].
  unfold m2. rewrite (output_text_flushed _ Hne1 Hopen1).
  unfold m1 at 1. rewrite (output_text_flushed _ Hne Hopen).
  unfold flush_text. rewrite Hg1, append_assoc.
  by destruct (output_has_content m), (output_has_content m1).
Qed.

Lemma endRun_keeps_buffer_and_reflushes_witness :
  let m := run_state (exec [BeginRun 2; RecordSample 0 1 1.0025]) (boot fresh_world) in
  let m2 := run_state endRun (run_state endRun m) in
  samples (g m2) = [sample_of 0 1 1.0025] /\
  output_text m2 =
    header +:+ line "1,,2,0,1000.000000,1002.500000,2.500000"
           +:+ line "1,,2,0,1000.000000,1002.500000,2.500000".
Proof.
  cbv zeta.
  destruct (endRun_keeps_buffer_and_reflushes
              (run_state (exec [BeginRun 2; RecordSample 0 1 1.0025]) (boot fresh_world)))
    as (_ & _ & _ & Htwice).
  destruct Htwice as (Hbuf & _).
  - discriminate.
  - vm_compute. reflexivity.
  - vm_compute. reflexivity.
  - split; [rewrite Hbuf; reflexivity | vm_compute; reflexivity].
Defined.

Lemma readable_output_eq (m : machine) :
  readable_output m =
  match files (w m) !! resolve (w m) (c_str (outputPath (g m))) with
  | Some (Regular r _ _) => r
  | _ => false
  end.
Proof.
  unfold readable_output, fopen, bind, gets, id; cbn [String.eqb Ascii.eqb Bool.eqb].
  by destruct (files (w m) !! _) as [[[] a d|e]|].
Qed.

Lemma readable_output_flushed (m : machine) :
  samples (g m) <> [] ->
  append_failure m = None ->
  readable_output (run_state endRun m) = (output_perms m).1.
Proof.
  intros Hne Hopen. destruct (endRun_appends m Hne Hopen) as [E _].
  by rewrite readable_output_eq, endRun_state, endRun_resolve, E.
Qed.

(** C6: a successful [endRun] writes the header line
    "run_id,label,num_threads,thread_id,start_ms,end_ms,duration_ms"
    exactly when [fileHasContent] answers false, that is when the output
    file cannot be opened for reading (it does not exist, or it may not be
    read) or holds no byte.  So a fresh path receives exactly one header
    line followed by one row per sample, and a later flush to the same
    path, provided the file can be read, appends its rows with no further
    header. *)
Theorem header_written_iff_no_readable_content (m : machine) :
  samples (g m) <> [] ->
  append_failure m = None ->
  let m1 := run_state endRun m in
  output_text m1 =
    output_text m
    +:+ (if output_has_content m then ""
         else line "run_id,label,num_threads,thread_id,start_ms,end_ms,duration_ms")
    +:+ concat_strings (rows_of (g m)) /\
  length (rows_of (g m)) = length (samples (g m)) /\
  (output_has_content m = false <-> readable_output m = false \/ output_text m = "") /\
  (output_text m = "" ->
   output_text m1 =
     line "run_id,label,num_threads,thread_id,start_ms,end_ms,duration_ms"
     +:+ concat_strings (rows_of (g m))) /\
  (forall m2 : machine,
     w m2 = w m1 -> outputPath (g m2) = outputPath (g m) ->
     samples (g m2) <> [] -> append_failure m2 = None ->
     readable_output m1 = true ->
     output_text (run_state endRun m2) = output_text m1 +:+ concat_strings (rows_of (g m2))).
Proof.
  intros Hne Hopen m1.
  change (line "run_id,label,num_threads,thread_id,start_ms,end_ms,duration_ms")
    with header.
  assert (output_has_content m = readable_output m && negb (String.eqb (output_text m) ""))
    as Hhas.
  { rewrite output_has_content_eq, readable_output_eq. unfold output_text, file_data.
    destruct (files (w m) !! _) as [[r a d|e]|]; [done | done | done]. }
  split; [| split; [| split; [| split]]].
  - unfold m1. rewrite (output_text_flushed _ Hne Hopen). unfold flush_text.
    by destruct (output_has_content m).
  - unfold rows_of. by rewrite length_map.
  - rewrite Hhas. destruct (readable_output m); cbn [andb].
    + destruct (String.eqb_spec (output_text m) ""); cbn [negb]; split; auto.
      intros [? | ?]; done.
    + split; auto.
  - intros Hfresh. unfold m1. rewrite (output_text_flushed _ Hne Hopen). unfold flush_text.
    rewrite Hhas, Hfresh. cbn [String.eqb negb]. by rewrite andb_false_r.
  - intros m2 Hw Hpath Hne2 Hopen2 Hread.
    rewrite (output_text_flushed _ Hne2 Hopen2).
    assert (output_has_content m2 = true) as ->.
    { unfold m1 in Hread. rewrite (readable_output_flushed _ Hne Hopen) in Hread.
      rewrite <- (output_has_content_flushed _ Hne Hopen) in Hread. fold m1 in Hread.
      rewrite <- Hread. unfold output_has_content. rewrite Hw, Hpath. unfold m1.
      by rewrite endRun_state. }
    unfold flush_text. cbn [negb]. rewrite append_nil_l.
    f_equal. unfold output_text. rewrite Hw, Hpath. unfold m1. by rewrite endRun_state.
Qed.

Lemma header_written_iff_no_readable_content_witness :
  let m := run_state (exec [BeginRun 2; RecordSample 0 1 1.0025; RecordSample 1 2 3])
                     (boot fresh_world) in
  let m1 := run_state endRun m in
  let m2 := run_state (exec [BeginRun 1; RecordSample 0 4 5]) m1 in
  output_text m1 =
    line "run_id,label,num_threads,thread_id,start_ms,end_ms,duration_ms"
    +:+ line "1,,2,0,1000.000000,1002.500000,2.500000"
    +:+ line "1,,2,1,2000.000000,3000.000000,1000.000000" /\
  output_text (run_state endRun m2) =
    output_text m1 +:+ line "2,,1,0,4000.000000,5000.000000,1000.000000".
Proof.
  cbv zeta.
  destruct (header_written_iff_no_readable_content
              (run_state (exec [BeginRun 2; RecordSample 0 1 1.0025; RecordSample 1 2 3])
                         (boot fresh_world)))
    as (_ & _ & _ & Hfresh & Hagain).
  - discriminate.
  - vm_compute. reflexivity.
  - split.
    + rewrite Hfresh; vm_compute; reflexivity.
    + rewrite (Hagain (run_state (exec [BeginRun 1; RecordSample 0 4 5])
                 (run_state endRun
                    (run_state (exec [BeginRun 2; RecordSample 0 1 1.0025; RecordSample 1 2 3])
                       (boot fresh_world))))).
      * vm_compute. reflexivity.
      * vm_compute. reflexivity.
      * reflexivity.
      * discriminate.
      * vm_compute. reflexivity.
      * vm_compute. reflexivity.
Defined.

(** C6, for a file that holds text but may not be read: the header is
    written again, although the file had content. *)
Lemma header_written_despite_content :
  let m := run_state (exec [BeginRun 1; RecordSample 0 1 1.0025]) (boot write_only_world) in
  output_text m =
    line "run_id,label,num_threads,thread_id,start_ms,end_ms,duration_ms"
    +:+ line "1,,1,0,0.000000,1000.000000,1000.000000" /\
  output_text m <> "" /\
  append_failure m = None /\
  output_text (run_state endRun m) =
    output_text m
    +:+ line "run_id,label,num_threads,thread_id,start_ms,end_ms,duration_ms"
    +:+ line "1,,1,0,1000.000000,1002.500000,2.500000".
Proof.
  cbv zeta. split; [| split; [| split]]; try (vm_compute; reflexivity).
  vm_compute. discriminate.
Qed.

(** With a umask that makes created files unreadable the recorder alone
    reaches that state: every run writes the header again. *)
Example header_again_in_blind_world :
  output_text
    (run_state (exec [BeginRun 1; RecordSample 0 1 2; EndRun;
                      BeginRun 1; RecordSample 0 2 3; EndRun])
               (boot blind_world)) =
  header +:+ line "1,,1,0,1000.000000,2000.000000,1000.000000"
         +:+ header +:+ line "2,,1,0,2000.000000,3000.000000,1000.000000".
Proof. vm_compute. reflexivity. Qed.

(** C9: when the output file exists but cannot be opened for reading,
    [fileHasContent] answers false whatever the file holds, so [endRun],
    if the file opens for appending, writes the header line
    "run_id,label,num_threads,thread_id,start_ms,end_ms,duration_ms" after
    the existing content and then the rows: a file that already began with
    that header line now holds it twice. *)
Theorem unreadable_output_gets_another_header (m : machine) (data : string) :
  samples (g m) <> [] ->
  files (w m) !! resolve (w m) (c_str (outputPath (g m))) = Some (Regular false true data) ->
  let m1 := run_state endRun m in
  (fileHasContent (outputPath (g m)) (w m)).1 = false /\
  append_failure m = None /\
  output_text m1 =
    data +:+ line "run_id,label,num_threads,thread_id,start_ms,end_ms,duration_ms"
         +:+ concat_strings (rows_of (g m)) /\
  (forall rest : string,
     data = line "run_id,label,num_threads,thread_id,start_ms,end_ms,duration_ms" +:+ rest ->
     output_text m1 =
       line "run_id,label,num_threads,thread_id,start_ms,end_ms,duration_ms" +:+ rest
       +:+ line "run_id,label,num_threads,thread_id,start_ms,end_ms,duration_ms"
       +:+ concat_strings (rows_of (g m))).
Proof.
  intros Hne Hnode m1.
  change (line "run_id,label,num_threads,thread_id,start_ms,end_ms,duration_ms")
    with header.
  assert (append_failure m = None) as Hopen by (by rewrite append_failure_eq, Hnode).
  assert (output_has_content m = false) as Hhas by (by rewrite output_has_content_eq, Hnode).
  assert (output_text m1 = data +:+ header +:+ concat_strings (rows_of (g m))) as Htext.
  { unfold m1. rewrite (output_text_flushed _ Hne Hopen), Hhas.
    unfold output_text, file_data. by rewrite Hnode. }
  split; [exact Hhas |]. split; [exact Hopen |]. split; [exact Htext |].
  intros rest ->. by rewrite Htext, append_assoc.
Qed.

Lemma unreadable_output_gets_another_header_witness :
  let m := run_state (exec [BeginRun 1; RecordSample 0 1 1.0025]) (boot write_only_world) in
  (fileHasContent (outputPath (g m)) (w m)).1 = false /\
  output_text m =
    line "run_id,label,num_threads,thread_id,start_ms,end_ms,duration_ms"
    +:+ line "1,,1,0,0.000000,1000.000000,1000.000000" /\
  output_text (run_state endRun m) =
    line "run_id,label,num_threads,thread_id,start_ms,end_ms,duration_ms"
    +:+ line "1,,1,0,0.000000,1000.000000,1000.000000"
    +:+ line "run_id,label,num_threads,thread_id,start_ms,end_ms,duration_ms"
    +:+ line "1,,1,0,1000.000000,1002.500000,2.500000".
Proof.
  cbv zeta.
  destruct (unreadable_output_gets_another_header
              (run_state (exec [BeginRun 1; RecordSample 0 1 1.0025]) (boot write_only_world))
              (line "run_id,label,num_threads,thread_id,start_ms,end_ms,duration_ms"
               +:+ line "1,,1,0,0.000000,1000.000000,1000.000000"))
    as (Hlook & _ & _ & Htwice).
  - discriminate.
  - vm_compute. reflexivity.
  - split; [exact Hlook |]. split; [vm_compute; reflexivity |].
    rewrite (Htwice (line "1,,1,0,0.000000,1000.000000,1000.000000")); reflexivity.
Defined.

Lemma boot_runId (w0 : world) (cs : list call) :
  count_begin cs <= INT_MAX ->
  runId (g (run_state (exec cs) (boot w0))) = count_begin cs.
Proof.
  intros Hle. rewrite exec_runId by reflexivity.
  rewrite exec_runCounter; cbn [boot g initial_state runCounter]; lia.
Qed.

(** C2: [runId] is 1 after the first [beginRun] of the process
    and grows by exactly 1 with every further [beginRun], whatever other
    calls are made in between, as long as fewer than [INT_MAX] runs were
    begun before; among those runs no [runId] is used twice, each being
    larger than every earlier value of [runId]. *)
Theorem runId_counts_beginRun_calls (w0 : world) (cs : list call) (n : Z) :
  count_begin cs < INT_MAX ->
  let before := run_state (exec cs) (boot w0) in
  let after := run_state (beginRun n) before in
  runId (g after) = count_begin cs + 1 /\
  (count_begin cs = 0 -> runId (g after) = 1) /\
  runId (g after) = runId (g before) + 1 /\
  (forall cs0 cs1 : list call,
     cs = (cs0 ++ cs1)%list -> runId (g (run_state (exec cs0) (boot w0))) < runId (g after)).
Proof.
  intros Hlt before after.
  pose proof (count_begin_nonneg cs) as Hge.
  assert (runId (g before) = count_begin cs) as Hbefore
    by (apply boot_runId; lia).
  assert (runCounter (g before) = count_begin cs) as Hcounter.
  { unfold before. rewrite <- exec_runId by reflexivity. exact Hbefore. }
  assert (runId (g after) = count_begin cs + 1) as Hafter.
  { unfold after, run_state. rewrite beginRun_eq. cbn [snd g runId].
    rewrite Hcounter. apply pre_incr_small. lia. }
  split; [exact Hafter |]. split; [lia |]. split; [lia |].
  intros cs0 cs1 ->. rewrite count_begin_app in *.
  pose proof (count_begin_nonneg cs0). pose proof (count_begin_nonneg cs1).
  rewrite boot_runId; lia.
Qed.

Lemma runId_counts_beginRun_calls_witness :
  let cs := [BeginRun 4; RecordSample 0 1 2; EndRun; SetRunLabel "x"; BeginRun 8] in
  count_begin cs < INT_MAX /\
  runId (g (run_state (beginRun 2) (run_state (exec cs) (boot fresh_world)))) = 3.
Proof.
  cbv zeta. split; [reflexivity |].
  apply (runId_counts_beginRun_calls fresh_world
           [BeginRun 4; RecordSample 0 1 2; EndRun; SetRunLabel "x"; BeginRun 8] 2).
  reflexivity.
Defined.

(** C2, beyond the range of [int]: after [INT_MAX] runs the counter is at
    the top of [int], and the next [beginRun] neither adds 1 to [runId]
    nor makes it larger. *)
Lemma runId_wraps_after_INT_MAX_runs :
  let before :=
    run_state (exec (repeat (BeginRun 1) (Z.to_nat INT_MAX))) (boot fresh_world) in
  let after := run_state (beginRun 1) before in
  runId (g before) = INT_MAX /\
  runId (g after) = INT_MIN /\
  runId (g after) <> runId (g before) + 1 /\
  ~ runId (g before) < runId (g after).
Proof.
  intros before after.
  assert (runId (g before) = 2147483647) as Hbefore.
  { unfold before. rewrite boot_runId; rewrite count_begin_repeat, Z2Nat.id;
      unfold INT_MAX; lia. }
  assert (runCounter (g before) = 2147483647) as Hcounter.
  { unfold before. rewrite <- exec_runId by reflexivity. exact Hbefore. }
  assert (runId (g after) = -2147483648) as Hafter.
  { unfold after, run_state. rewrite beginRun_eq. cbn [snd g runId].
    rewrite Hcounter. reflexivity. }
  unfold INT_MAX, INT_MIN. rewrite Hbefore, Hafter. repeat split; lia.
Qed.

(** C3: [recordSample threadId startSeconds endSeconds] appends
    one sample with [startMs = startSeconds * 1000],
    [endMs = endSeconds * 1000] and
    [durationMs = (endSeconds - startSeconds) * 1000], all in binary64
    arithmetic and computed once at record time; [endRun] prints the
    stored fields.  For 1.0 and 1.0025 seconds the row ends in
    1000.000000, 1002.500000, 2.500000. *)
Theorem recordSample_stores_milliseconds :
  (forall (m : machine) (tid : Z) (s e : float),
     samples (g (run_state (recordSample tid s e) m)) =
       (samples (g m) ++
        [{| threadId := tid;
            startMs := (s * 1000)%float;
            endMs := (e * 1000)%float;
            durationMs := ((e - s) * 1000)%float |}])%list) /\
  (forall (rid : Z) (lbl : string) (nt tid : Z),
     map (row rid lbl nt)
         (samples (g (run_state (recordSample tid 1 1.0025) (boot fresh_world)))) =
     [fmt_d rid +:+ "," +:+ c_str lbl +:+ "," +:+ fmt_d nt +:+ "," +:+ fmt_d tid +:+ "," +:+
      "1000.000000" +:+ "," +:+ "1002.500000" +:+ "," +:+ "2.500000" +:+ String newline ""]) /\
  output_text (run_state (exec [BeginRun 1; RecordSample 0 1 1.0025; EndRun])
                         (boot fresh_world)) =
    header +:+ line "1,,1,0,1000.000000,1002.500000,2.500000".
Proof.
  split; [| split].
  - reflexivity.
  - intros rid lbl nt tid. cbn [recordSample]. unfold run_state.
    rewrite recordSample_eq. cbn [snd g samples set_samples boot initial_state app map].
    unfold row, sample_of. cbn [threadId startMs endMs durationMs].
    replace (fmt_f6 (1 * 1000)) with "1000.000000" by (vm_compute; reflexivity).
    replace (fmt_f6 (1.0025 * 1000)) with "1002.500000" by (vm_compute; reflexivity).
    replace (fmt_f6 ((1.0025 - 1) * 1000)) with "2.500000" by (vm_compute; reflexivity).
    reflexivity.
  - vm_compute. reflexivity.
Qed.

(** C3, the duration against the difference of the stored times: they are
    not the same number.  For 1.0 and 1.0025 seconds the difference of the
    millisecond values is 2.5, the stored duration is 2.4999999999999467. *)
Lemma duration_is_not_difference_of_ms :
  exists smp : Sample,
    samples (g (run_state (recordSample 0 1 1.0025) (boot fresh_world))) = [smp] /\
    (endMs smp - startMs smp)%float = 2.5%float /\
    durationMs smp = 2.4999999999999467%float /\
    PrimFloat.eqb (durationMs smp) (endMs smp - startMs smp) = false /\
    durationMs smp <> (endMs smp - startMs smp)%float.
Proof.
  exists (sample_of 0 1 1.0025).
  split; [reflexivity |]. split; [vm_compute; reflexivity |].
  split; [vm_compute; reflexivity |]. split; [vm_compute; reflexivity |].
  intros H. apply (f_equal Prim2SF) in H. vm_compute in H. discriminate H.
Qed.

(** ** Further properties of the recorder *)

(** Files other than the output file are out of [endRun]'s reach. *)
Lemma endRun_other_files (m : machine) (name : string) :
  name <> resolve (w m) (c_str (outputPath (g m))) ->
  files (w (run_state endRun m)) !! name = files (w m) !! name /\
  creat_readable (w (run_state endRun m)) = creat_readable (w m) /\
  creat_appendable (w (run_state endRun m)) = creat_appendable (w m).
Proof.
  intros Hq. destruct (samples (g m)) as [|smp smps] eqn:E.
  - unfold run_state. by rewrite (endRun_nothing _ E).
  - assert (samples (g m) <> []) as Hne by (by rewrite E).
    rewrite (endRun_world _ Hne). cbv zeta. cbn [w].
    destruct (files (w m) !! resolve (w m) (c_str (outputPath (g m)))) as [[r [] d|e]|];
      try destruct r; cbn [files set_files set_errno write_stderr
                           creat_readable creat_appendable];
      rewrite ?lookup_insert_ne by done; done.
Qed.

(** X1: [endRun] touches no file but the one its output path leads to.  A
    path that leads to another file finds after the call what it found
    before (nothing created, extended or lost), name resolution and the
    permissions for created files stay as they are; a path that leads to
    the output file, however it is spelled, shows the output file. *)
Theorem endRun_touches_only_output_file (m : machine) (q : string) :
  let m' := run_state endRun m in
  (resolve (w m) q <> resolve (w m) (c_str (outputPath (g m))) ->
   file_data (w m') q = file_data (w m) q /\
   files (w m') !! resolve (w m) q = files (w m) !! resolve (w m) q) /\
  (resolve (w m) q = resolve (w m) (c_str (outputPath (g m))) ->
   file_data (w m') q = file_data (w m') (c_str (outputPath (g m)))) /\
  resolve (w m') = resolve (w m) /\
  creat_readable (w m') = creat_readable (w m) /\
  creat_appendable (w m') = creat_appendable (w m).
Proof.
  cbv zeta. split; [| split; [| split]].
  - intros Hq. destruct (endRun_other_files m _ Hq) as (Hf & _).
    unfold file_data. by rewrite endRun_resolve, Hf.
  - intros Hq. unfold file_data. by rewrite endRun_resolve, Hq.
  - apply endRun_resolve.
  - destruct (samples (g m)) as [|smp smps] eqn:E.
    + unfold run_state. by rewrite (endRun_nothing _ E).
    + assert (samples (g m) <> []) as Hne by (by rewrite E).
      rewrite (endRun_world _ Hne). cbv zeta. cbn [w].
      by destruct (files (w m) !! resolve (w m) (c_str (outputPath (g m))))
        as [[[] [] d|e]|].
Qed.

Lemma endRun_touches_only_output_file_witness :
  let m := run_state (exec [BeginRun 1; RecordSample 0 1 1.0025]) (boot write_only_world) in
  file_data (w (run_state endRun m)) "other.csv" = file_data (w m) "other.csv" /\
  file_data (w (run_state endRun m)) "./thread_timings.csv" =
    file_data (w (run_state endRun m)) "thread_timings.csv".
Proof.
  cbv zeta.
  destruct (endRun_touches_only_output_file
              (run_state (exec [BeginRun 1; RecordSample 0 1 1.0025]) (boot write_only_world))
              "other.csv") as (Hother & _).
  destruct (endRun_touches_only_output_file
              (run_state (exec [BeginRun 1; RecordSample 0 1 1.0025]) (boot write_only_world))
              "./thread_timings.csv") as (_ & Halias & _).
  split.
  - apply Hother. vm_compute. discriminate.
  - apply Halias. reflexivity.
Defined.

(** Another spelling of the output path reaches the same file: the rows
    are appended to it, and no second header is written. *)
Example other_spelling_same_file :
  let m := run_state (exec [BeginRun 1; RecordSample 0 1 2; SetOutputPath "./thread_timings.csv"])
                     (boot earlier_run_world) in
  file_data (w (run_state endRun m)) "thread_timings.csv" =
    Some (line "run_id,label,num_threads,thread_id,start_ms,end_ms,duration_ms"
          +:+ line "1,,1,0,0.000000,1000.000000,1000.000000"
          +:+ line "1,,1,0,1000.000000,2000.000000,1000.000000").
Proof. vm_compute. reflexivity. Qed.

Lemma exec_call_world (c : call) (m : machine) :
  is_endRun c = false -> w (run_state (exec_call c) m) = w m.
Proof. by destruct c. Qed.

Lemma exec_world (cs : list call) (m : machine) :
  forallb (fun c => negb (is_endRun c)) cs = true ->
  w (run_state (exec cs) m) = w m.
Proof.
  revert m. induction cs as [|c cs IH]; intros m Hcs; [done |].
  cbn [forallb] in Hcs. apply andb_prop in Hcs as [Hc Hcs].
  rewrite exec_cons, (IH _ Hcs). apply exec_call_world.
  by destruct (is_endRun c).
Qed.

(** X2: only [endRun] does input or output.  A client that never calls
    [endRun] leaves the world as it found it: no file is created or
    written, nothing is printed on [stderr] and [errno] is not set,
    however many samples it records and runs it begins. *)
Theorem only_endRun_does_io (cs : list call) (m : machine) :
  forallb (fun c => negb (is_endRun c)) cs = true ->
  w (run_state (exec cs) m) = w m.
Proof. apply exec_world. Qed.

Lemma only_endRun_does_io_witness :
  w (run_state (exec [SetOutputPath "x.csv"; BeginRun 2; RecordSample 0 1 2;
                      SetRunLabel "a"; RecordSample 1 1 2; BeginRun 3])
               (boot fresh_world)) = fresh_world.
Proof.
  apply (only_endRun_does_io
           [SetOutputPath "x.csv"; BeginRun 2; RecordSample 0 1 2;
            SetRunLabel "a"; RecordSample 1 1 2; BeginRun 3] (boot fresh_world)).
  reflexivity.
Defined.

Lemma append_same (s t : string) : s +:+ t = s -> t = "".
Proof.
  induction s as [|c s IH]; [done |].
  rewrite append_cons. intros [= H]. by apply IH.
Qed.

(** X3: [endRun] prints on [stderr] exactly when it holds samples and
    cannot open its file.  An empty buffer and a successful flush are both
    silent. *)
Theorem endRun_silent_unless_open_fails (m : machine) :
  stderr (w (run_state endRun m)) = stderr (w m) <->
  samples (g m) = [] \/ append_failure m = None.
Proof.
  destruct (samples (g m)) as [|smp smps] eqn:E.
  - unfold run_state. rewrite (endRun_nothing _ E). split; auto.
  - assert (samples (g m) <> []) as Hne by (by rewrite E).
    rewrite (endRun_world _ Hne), append_failure_eq. cbv zeta. cbn [w].
    destruct (files (w m) !! resolve (w m) (c_str (outputPath (g m)))) as [[r [] d|e]|];
      try destruct r; cbn [stderr set_files set_errno write_stderr];
      split; auto; try (intros [? | ?]; done).
    all: intros H; apply append_same in H;
      unfold diagnostic in H; by apply append_eq_nil in H as [? _].
Qed.

(** X4: [fileHasContent] only looks.  It creates and changes no file and
    prints nothing, and it answers true exactly for a file that can be
    opened for reading and holds at least one byte, whatever that byte is;
    then it leaves [errno] alone too. *)
Theorem fileHasContent_only_looks (path : string) (w0 : world) :
  let r := fileHasContent path w0 in
  files r.2 = files w0 /\
  stderr r.2 = stderr w0 /\
  (r.1 = true <->
   exists (a : bool) (c : ascii) (rest : string),
     files w0 !! resolve w0 (c_str path) = Some (Regular true a (String c rest))) /\
  (r.1 = true -> r.2 = w0).
Proof.
  cbv zeta. rewrite fileHasContent_eq.
  destruct (files w0 !! resolve w0 (c_str path)) as [[[] a [|c d]|e]|]; cbn;
    repeat split; try done.
  - by intros (? & ? & ? & [=]).
  - intros _. by exists a, c, d.
  - by intros (? & ? & ? & [=]).
  - by intros (? & ? & ? & [=]).
  - by intros (? & ? & ? & [=]).
  - by intros (? & ? & ? & [=]).
Qed.

Lemma fileHasContent_only_looks_witness :
  (fileHasContent "thread_timings.csv" write_only_world).1 = false /\
  files (fileHasContent "thread_timings.csv" write_only_world).2 = files write_only_world.
Proof.
  split; [reflexivity |].
  apply (fileHasContent_only_looks "thread_timings.csv" write_only_world).
Defined.

(** X5: in the build without ENABLE_THREAD_TIMING no client has any
    effect: whatever calls it makes, the world is left as it was, so no
    output file ever appears. *)
Theorem disabled_build_has_no_effect (cs : list call) (w0 : world) :
  Disabled.exec cs w0 = (tt, w0).
Proof.
  revert w0. induction cs as [|c cs IH]; intros w0; [done |].
  unfold Disabled.exec. cbn [for_each]. rewrite run_bind.
  assert (Disabled.exec_call c w0 = (tt, w0)) as -> by (by destruct c).
  apply IH.
Qed.

(** X6: [beginRun] drops what was recorded and not flushed.  When a run
    is begun and recorded and a second run begins without [endRun] in
    between, the next [endRun] writes the rows of the second run only,
    under the second run's id and thread count; the samples of the first
    run reach no file. *)
Theorem beginRun_discards_unflushed_samples
    (m : machine) (n1 n2 : Z) (cs1 cs2 : list call) :
  forallb inside_run cs1 = true ->
  forallb inside_run cs2 = true ->
  let m1 := run_state (exec cs1) (run_state (beginRun n1) m) in
  let m2 := run_state (exec cs2) (run_state (beginRun n2) m1) in
  append_failure m2 = None ->
  w m2 = w m /\
  samples (g m2) = recorded cs2 /\
  exists hdr : string,
    (hdr = "" \/ hdr = header) /\
    output_text (run_state endRun m2) =
      output_text m2 +:+ hdr +:+
      concat_strings
        (map (row (pre_incr (pre_incr (runCounter (g m))))
                  (last_label (last_label (label (g m)) cs1) cs2) n2)
             (recorded cs2)).
Proof.
  intros Hin1 Hin2 m1 m2 Hopen.
  destruct (run_buffer m n1 cs1 Hin1) as (_ & Hl1 & _ & Hid1 & Hw1). fold m1 in Hl1, Hid1, Hw1.
  destruct (run_buffer m1 n2 cs2 Hin2) as (Hs2 & _ & _ & Hid2 & Hw2). fold m2 in Hs2, Hid2, Hw2.
  split; [by rewrite Hw2, Hw1 |]. split; [exact Hs2 |].
  destruct (run_flush m1 n2 cs2 Hin2 Hopen) as (hdr & Hhdr & Htext). fold m2 in Htext.
  exists hdr. split; [exact Hhdr |].
  rewrite Htext, Hid2, Hl1. do 4 f_equal.
  unfold m1. rewrite (exec_inside_run _ _ Hin1). unfold run_state. by rewrite beginRun_eq.
Qed.

Lemma beginRun_discards_unflushed_samples_witness :
  let m2 := run_state (exec [BeginRun 4; RecordSample 0 1 2; RecordSample 1 1 2;
                             BeginRun 2; RecordSample 5 3 4])
                      (boot fresh_world) in
  output_text (run_state endRun m2) =
    header +:+ line "2,,2,5,3000.000000,4000.000000,1000.000000".
Proof.
  cbv zeta.
  destruct (beginRun_discards_unflushed_samples (boot fresh_world) 4 2
              [RecordSample 0 1 2; RecordSample 1 1 2] [RecordSample 5 3 4])
    as (_ & _ & hdr & _ & Htext); [reflexivity | reflexivity | reflexivity |].
  vm_compute. reflexivity.
Defined.

(** X7: samples recorded before the first [beginRun] of the process are
    accepted and flushed like any others; their rows carry the run id 0
    and the thread count 0 of the freshly constructed state. *)
Theorem samples_before_first_beginRun (w0 : world) (cs : list call) :
  forallb inside_run cs = true ->
  let m := run_state (exec cs) (boot w0) in
  append_failure m = None ->
  samples (g m) = recorded cs /\
  rows_of (g m) = map (row 0 (last_label "" cs) 0) (recorded cs) /\
  (recorded cs <> [] ->
   output_text (run_state endRun m) =
     output_text m +:+ (if output_has_content m then "" else header)
                   +:+ concat_strings (map (row 0 (last_label "" cs) 0) (recorded cs))).
Proof.
  intros Hin m Hopen.
  assert (g m = mkGlobalState 0 0 0 (last_label "" cs)
                  (last_path "thread_timings.csv" cs) (recorded cs)) as Hg.
  { unfold m. by rewrite (exec_inside_run _ _ Hin). }
  split; [by rewrite Hg |]. split; [unfold rows_of; by rewrite Hg |].
  intros Hne. rewrite output_text_flushed; [| by rewrite Hg | done].
  unfold flush_text, rows_of. rewrite Hg. cbn [runId label numThreads samples].
  by destruct (output_has_content m).
Qed.

Lemma samples_before_first_beginRun_witness :
  let m := run_state (exec [RecordSample 3 1 1.0025]) (boot fresh_world) in
  output_text (run_state endRun m) =
    header +:+ line "0,,0,3,1000.000000,1002.500000,2.500000".
Proof.
  cbv zeta.
  destruct (samples_before_first_beginRun fresh_world [RecordSample 3 1 1.0025])
    as (_ & _ & Htext); [reflexivity | reflexivity |].
  rewrite Htext; [vm_compute; reflexivity | discriminate].
Defined.

(** X8: a flush that failed can be repeated.  The failed [endRun] leaves
    the buffer as it was, so after [setOutputPath] to a file that opens,
    the next [endRun] writes the rows of the very same samples. *)
Theorem failed_flush_can_be_retried (m : machine) (e : errno_t) (path : string) :
  samples (g m) <> [] ->
  append_failure m = Some e ->
  let m1 := run_state (setOutputPath path) (run_state endRun m) in
  append_failure m1 = None ->
  samples (g m1) = samples (g m) /\
  output_text (run_state endRun m1) =
    output_text m1 +:+ (if output_has_content m1 then "" else header)
                   +:+ concat_strings (rows_of (g m)).
Proof.
  intros Hne Hfail m1 Hopen.
  assert (g m1 = set_outputPath path (g m)) as Hg.
  { unfold m1. unfold run_state at 1. cbn. by rewrite endRun_state. }
  assert (samples (g m1) = samples (g m)) as Hs by (by rewrite Hg).
  split; [exact Hs |].
  rewrite output_text_flushed; [| by rewrite Hs | done].
  unfold flush_text, rows_of. rewrite Hg. cbn [runId label numThreads samples set_outputPath].
  by destruct (output_has_content m1).
Qed.

Lemma failed_flush_can_be_retried_witness :
  let m := run_state (exec [SetOutputPath "out/t.csv"; BeginRun 2; RecordSample 0 1 2])
                     (boot no_directory_world) in
  let m1 := run_state (setOutputPath "t.csv") (run_state endRun m) in
  output_text (run_state endRun m1) =
    header +:+ line "1,,2,0,1000.000000,2000.000000,1000.000000".
Proof.
  cbv zeta.
  destruct (failed_flush_can_be_retried
              (run_state (exec [SetOutputPath "out/t.csv"; BeginRun 2; RecordSample 0 1 2])
                         (boot no_directory_world)) ENOENT "t.csv")
    as (_ & Htext).
  - discriminate.
  - vm_compute. reflexivity.
  - vm_compute. reflexivity.
  - rewrite Htext. vm_compute. reflexivity.
Defined.

(** X9: the output path counts when [endRun] runs, not when samples are
    recorded.  After [setOutputPath] to a path that leads to another file,
    the pending samples go to that file (after the header line
    "run_id,label,num_threads,thread_id,start_ms,end_ms,duration_ms" when
    [fileHasContent] finds nothing there), and the file the earlier path
    leads to is neither created nor changed. *)
Theorem setOutputPath_redirects_pending_samples (m : machine) (path : string) :
  samples (g m) <> [] ->
  resolve (w m) (c_str path) <> resolve (w m) (c_str (outputPath (g m))) ->
  let m1 := run_state (setOutputPath path) m in
  append_failure m1 = None ->
  let m2 := run_state endRun m1 in
  file_data (w m2) (c_str (outputPath (g m))) = file_data (w m) (c_str (outputPath (g m))) /\
  file_data (w m2) (c_str path) =
    Some (default "" (file_data (w m) (c_str path))
          +:+ (if output_has_content m1 then ""
               else line "run_id,label,num_threads,thread_id,start_ms,end_ms,duration_ms")
          +:+ concat_strings (rows_of (g m))).
Proof.
  intros Hne Hpath m1 Hopen m2.
  assert (g m1 = set_outputPath path (g m)) as Hg by reflexivity.
  assert (w m1 = w m) as Hw by reflexivity.
  assert (samples (g m1) <> []) as Hne1 by (by rewrite Hg).
  assert (resolve (w m2) = resolve (w m)) as Hres
    by (unfold m2; by rewrite endRun_resolve).
  split.
  - destruct (endRun_other_files m1 (resolve (w m) (c_str (outputPath (g m))))) as [H _].
    { rewrite Hg, Hw. cbn [outputPath set_outputPath]. congruence. }
    unfold file_data. rewrite Hres. unfold m2. by rewrite H, Hw.
  - destruct (endRun_appends m1 Hne1 Hopen) as [E _].
    rewrite Hg, Hw in E at 1. cbn [outputPath set_outputPath] in E.
    unfold file_data at 1. rewrite Hres. unfold m2. rewrite E. f_equal.
    unfold output_text, flush_text, rows_of. rewrite Hg, Hw.
    cbn [outputPath set_outputPath runId label numThreads samples].
    by destruct (output_has_content m1).
Qed.

Lemma setOutputPath_redirects_pending_samples_witness :
  let m := run_state (exec [BeginRun 1; RecordSample 0 1 2]) (boot write_only_world) in
  let m2 := run_state endRun (run_state (setOutputPath "new.csv") m) in
  file_data (w m2) "thread_timings.csv" = file_data write_only_world "thread_timings.csv" /\
  file_data (w m2) "new.csv" =
    Some (line "run_id,label,num_threads,thread_id,start_ms,end_ms,duration_ms"
          +:+ line "1,,1,0,1000.000000,2000.000000,1000.000000").
Proof.
  cbv zeta.
  destruct (setOutputPath_redirects_pending_samples
              (run_state (exec [BeginRun 1; RecordSample 0 1 2]) (boot write_only_world))
              "new.csv")
    as (Hold & Hnew).
  - discriminate.
  - vm_compute. discriminate.
  - vm_compute. reflexivity.
  - split.
    + change (c_str (outputPath (g (run_state (exec [BeginRun 1; RecordSample 0 1 2])
                                             (boot write_only_world)))))
        with "thread_timings.csv" in Hold.
      rewrite Hold. reflexivity.
    + change (c_str "new.csv") with "new.csv" in Hnew. rewrite Hnew.
      vm_compute. reflexivity.
Defined.

Lemma count_char_app (c : ascii) (s t : string) :
  count_char c (s +:+ t) = (count_char c s + count_char c t)%nat.
Proof.
  induction s as [|c' s IH]; [done |].
  rewrite append_cons. cbn [count_char]. rewrite IH. lia.
Qed.

(** The numeric conversions print neither commas nor line breaks. *)
Section Separators.

Variable c : ascii.
Hypothesis separator : c = ","%char \/ c = newline.

Lemma count_char_uint (d : uint) : count_char c (NilEmpty.string_of_uint d) = O.
Proof. destruct separator as [-> | ->]; induction d; simpl; done. Qed.

Lemma count_char_fmt_u (d : uint) : count_char c (NilZero.string_of_uint d) = O.
Proof.
  destruct d; try apply count_char_uint.
  by destruct separator as [-> | ->].
Qed.

Lemma count_char_fmt_d (z : Z) : count_char c (fmt_d z) = O.
Proof.
  unfold fmt_d, NilZero.string_of_int.
  destruct (Z.to_int z); cbn [count_char]; rewrite count_char_fmt_u;
    by destruct separator as [-> | ->].
Qed.

Lemma count_char_zeros (n : nat) : count_char c (zeros n) = O.
Proof. destruct separator as [-> | ->]; induction n; simpl; done. Qed.

Lemma count_char_fmt_0u (k : nat) (z : Z) : count_char c (fmt_0u k z) = O.
Proof.
  unfold fmt_0u. by rewrite count_char_app, count_char_zeros, count_char_fmt_u.
Qed.

Lemma count_char_fmt_f6 (x : float) : count_char c (fmt_f6 x) = O.
Proof.
  unfold fmt_f6.
  destruct (Prim2SF x) as [s|s| |s m e]; try destruct s; unfold sign_text;
    rewrite ?count_char_app, ?count_char_fmt_d, ?count_char_fmt_0u;
    by destruct separator as [-> | ->].
Qed.

End Separators.

(** X10: a row has exactly six commas and one line break of the
    recorder's own; every further comma or line break in it comes from
    the label, which is printed as it is, unquoted.  So a row is one line
    of seven comma-separated fields exactly when the label holds neither
    character. *)
Theorem row_separators (rid : Z) (lbl : string) (nt : Z) (smp : Sample) :
  count_char "," (row rid lbl nt smp) = (6 + count_char "," (c_str lbl))%nat /\
  count_char newline (row rid lbl nt smp) = (1 + count_char newline (c_str lbl))%nat /\
  (count_char "," (row rid lbl nt smp) = 6%nat /\
   count_char newline (row rid lbl nt smp) = 1%nat <->
   has_char "," (c_str lbl) = false /\ has_char newline (c_str lbl) = false).
Proof.
  assert (forall ch s, count_char ch s = O <-> has_char ch s = false) as Hhas.
  { intros ch s. induction s as [|c' s IH]; [done |]. cbn [count_char has_char].
    destruct (Ascii.eqb c' ch); cbn [orb]; [split; [lia | done] | by rewrite <- IH]. }
  assert (count_char "," (row rid lbl nt smp) = (6 + count_char "," (c_str lbl))%nat) as Hc.
  { unfold row. rewrite !count_char_app, !count_char_fmt_d, !count_char_fmt_f6 by auto.
    cbn. lia. }
  assert (count_char newline (row rid lbl nt smp)
          = (1 + count_char newline (c_str lbl))%nat) as Hn.
  { unfold row. rewrite !count_char_app, !count_char_fmt_d, !count_char_fmt_f6 by auto.
    cbn. lia. }
  split; [exact Hc |]. split; [exact Hn |].
  rewrite Hc, Hn, <- !Hhas. lia.
Qed.

Lemma c_str_no_NUL (s : string) : has_char NUL (c_str s) = false.
Proof.
  induction s as [|c s IH]; [done |]. cbn [c_str].
  destruct (Ascii.eqb c NUL) eqn:E; [done |]. cbn [has_char]. by rewrite E.
Qed.

Lemma c_str_id (s : string) : has_char NUL s = false -> c_str s = s.
Proof.
  induction s as [|c s IH]; [done |]. cbn [has_char c_str].
  destruct (Ascii.eqb c NUL); [done |]. cbn [orb]. intros H. by rewrite IH.
Qed.

Lemma c_str_cut (s t : string) :
  has_char NUL s = false -> c_str (s +:+ String NUL t) = s.
Proof.
  induction s as [|c s IH]; [done |]. rewrite append_cons. cbn [has_char c_str].
  destruct (Ascii.eqb c NUL); [done |]. cbn [orb]. intros H. by rewrite IH.
Qed.

(** The world after [endRun] depends on the label and the path only
    through what [c_str()] shows of them. *)
Lemma endRun_c_str (m m' : machine) :
  w m' = w m ->
  samples (g m') = samples (g m) ->
  runId (g m') = runId (g m) ->
  numThreads (g m') = numThreads (g m) ->
  c_str (label (g m')) = c_str (label (g m)) ->
  c_str (outputPath (g m')) = c_str (outputPath (g m)) ->
  w (run_state endRun m') = w (run_state endRun m).
Proof.
  intros Hw Hs Hr Hn Hl Hp.
  assert (rows_of (g m') = rows_of (g m)) as Hrows.
  { unfold rows_of. rewrite Hs, Hr, Hn. apply map_ext. intros smp.
    unfold row. by rewrite Hl. }
  destruct (samples (g m)) as [|smp smps] eqn:E.
  - unfold run_state. rewrite !endRun_nothing by congruence. exact Hw.
  - rewrite !endRun_world by congruence. cbv zeta. cbn [w].
    unfold flush_text. by rewrite Hw, Hp, Hrows.
Qed.

(** X11: the label and the output path reach the C library through
    [c_str()], so each ends at its first NUL character.  A label
    [l +:+ NUL +:+ l'] is printed as [l], a path [p +:+ NUL +:+ p'] names
    the file [p], and [endRun] leaves the world it would leave with the
    label [l] and the path [p]. *)
Theorem label_and_path_end_at_NUL (m : machine) (l l' p p' : string) :
  has_char NUL l = false ->
  has_char NUL p = false ->
  label (g m) = l +:+ String NUL l' ->
  outputPath (g m) = p +:+ String NUL p' ->
  rows_of (g m) = map (row (runId (g m)) l (numThreads (g m))) (samples (g m)) /\
  c_str (outputPath (g m)) = p /\
  w (run_state endRun m) =
    w (run_state endRun (mkMachine (set_outputPath p (set_label l (g m))) (w m))).
Proof.
  intros Hl Hp El Ep.
  assert (c_str (label (g m)) = l) as Hcl by (by rewrite El, c_str_cut).
  assert (c_str (outputPath (g m)) = p) as Hcp by (by rewrite Ep, c_str_cut).
  split; [| split; [exact Hcp |]].
  - unfold rows_of. apply map_ext. intros smp. unfold row.
    by rewrite Hcl, (c_str_id l Hl).
  - symmetry. apply endRun_c_str; cbn; try done.
    + by rewrite Hcl, c_str_id.
    + by rewrite Hcp, c_str_id.
Qed.

Lemma label_and_path_end_at_NUL_witness :
  let m := run_state (exec [SetRunLabel ("ab" +:+ String NUL "cd");
                            SetOutputPath ("t.csv" +:+ String NUL ".bak");
                            BeginRun 1; RecordSample 0 1 2])
                     (boot fresh_world) in
  rows_of (g m) = [row 1 "ab" 1 (sample_of 0 1 2)] /\
  c_str (outputPath (g m)) = "t.csv".
Proof.
  cbv zeta.
  destruct (label_and_path_end_at_NUL
              (run_state (exec [SetRunLabel ("ab" +:+ String NUL "cd");
                                SetOutputPath ("t.csv" +:+ String NUL ".bak");
                                BeginRun 1; RecordSample 0 1 2])
                         (boot fresh_world))
              "ab" "cd" "t.csv" ".bak")
    as (Hrows & Hpath & _); try reflexivity.
  split; [rewrite Hrows; reflexivity | exact Hpath].
Defined.

(** The recorder after an arbitrary client. *)
Lemma exec_state (cs : list call) (m : machine) :
  let m' := run_state (exec cs) m in
  label (g m') = last_label (label (g m)) cs /\
  outputPath (g m') = last_path (outputPath (g m)) cs /\
  samples (g m') = buffer_after (samples (g m)) cs /\
  numThreads (g m') = threads_after (numThreads (g m)) cs.
Proof.
  revert m. induction cs as [|c cs IH]; intros m; [done |].
  cbv zeta. rewrite exec_cons.
  destruct (IH (run_state (exec_call c) m)) as (Hl & Hp & Hs & Hn).
  rewrite Hl, Hp, Hs, Hn.
  destruct c; cbn [exec_call last_label last_path buffer_after threads_after];
    try done.
  by rewrite endRun_state.
Qed.

Lemma last_path_fixed (p : string) (cs : list call) :
  forallb (fun c => negb (is_setOutputPath c)) cs = true -> last_path p cs = p.
Proof.
  induction cs as [|c cs IH]; [done |]. cbn [forallb]. intros H.
  apply andb_prop in H as [Hc Hcs]. destruct c; cbn [last_path]; try by apply IH.
  done.
Qed.

Lemma exec_runId_after_begin (cs : list call) (m : machine) :
  0 < count_begin cs ->
  runId (g (run_state (exec cs) m)) = runCounter (g (run_state (exec cs) m)).
Proof.
  revert m. induction cs as [|c cs IH]; intros m Hpos; [done |].
  rewrite exec_cons.
  destruct c; cbn [count_begin] in Hpos; try (by apply IH).
  by apply exec_runId.
Qed.

(** X12: what the recorder holds after any client at all.  The label and
    the path are the last ones set, the thread count is that of the last
    [beginRun], the buffer holds the samples recorded since the last
    [beginRun] in call order ([endRun] calls in between take nothing
    away), and once a run was begun [runId] equals [runCounter]. *)
Theorem recorder_after_any_client (cs : list call) (m : machine) :
  let m' := run_state (exec cs) m in
  label (g m') = last_label (label (g m)) cs /\
  outputPath (g m') = last_path (outputPath (g m)) cs /\
  samples (g m') = buffer_after (samples (g m)) cs /\
  numThreads (g m') = threads_after (numThreads (g m)) cs /\
  (0 < count_begin cs -> runId (g m') = runCounter (g m')).
Proof.
  cbv zeta. destruct (exec_state cs m) as (Hl & Hp & Hs & Hn).
  repeat split; try done. apply exec_runId_after_begin.
Qed.

Lemma recorder_after_any_client_witness :
  let m' := run_state (exec [BeginRun 2; RecordSample 0 1 2; EndRun; RecordSample 1 2 3;
                             SetRunLabel "x"; EndRun])
                      (boot fresh_world) in
  samples (g m') = [sample_of 0 1 2; sample_of 1 2 3] /\
  runId (g m') = runCounter (g m').
Proof.
  cbv zeta.
  destruct (recorder_after_any_client
              [BeginRun 2; RecordSample 0 1 2; EndRun; RecordSample 1 2 3;
               SetRunLabel "x"; EndRun] (boot fresh_world))
    as (_ & _ & Hs & _ & Hid).
  split; [rewrite Hs; reflexivity | apply Hid; reflexivity].
Defined.

(** The second phase of [endRun] in one piece. *)
Lemma endRun_unlocked_eq (snap : snapshot) (m : machine) :
  endRun_unlocked snap m =
  (tt,
   let probe := fileHasContent (outputPath (g m)) (w m) in
   let opened := fopen (c_str (outputPath (g m))) "a" probe.2 in
   match opened.1 with
   | None => mkMachine (g m) (perror "thread_timings fopen" opened.2).2
   | Some fp =>
       mkMachine (g m)
         (fprintf fp
            ((if probe.1 then "" else header) +:+
             concat_strings
               (map (row (snap_runId snap) (snap_label snap) (snap_numThreads snap))
                    (snap_samples snap)))
            opened.2).2
   end).
Proof.
  destruct m as [g0 w0]. unfold endRun_unlocked. run_step.
  destruct (fopen (c_str (outputPath g0)) "a" (fileHasContent (outputPath g0) w0).2)
    as [[fp|] w2]; cbn [fst snd].
  - destruct (fileHasContent (outputPath g0) w0).1; cbn [negb]; run_step.
    + rewrite for_each_fprintf. run_step. by rewrite append_nil_l.
    + rewrite for_each_fprintf. run_step. by rewrite fprintf_fprintf.
  - run_step. by destruct (perror _ _).1.
Qed.

Lemma endRun_locked_eq (m : machine) :
  endRun_locked m =
  (if empty (samples (g m)) then None
   else Some (mkSnapshot (samples (g m)) (label (g m)) (runId (g m)) (numThreads (g m))),
   m).
Proof.
  unfold endRun_locked, state. run_step. by destruct (empty (samples (g m))).
Qed.

(** X13: [endRun] is its locked phase followed by its unlocked phase, and
    the flush writes the snapshot taken under the mutex.  Calls that take
    effect between the two phases ([recordSample], [setRunLabel],
    [beginRun] from other threads) change neither the rows nor the header
    decision of the flush in progress, and the flush changes nothing in
    the recorder they left.  Only [setOutputPath], which the flush reads
    after the mutex is released, is excluded here. *)
Theorem flush_writes_the_snapshot (m : machine) (snap : snapshot) (cs : list call) :
  (endRun_locked m).1 = Some snap ->
  forallb (fun c => negb (is_endRun c)) cs = true ->
  forallb (fun c => negb (is_setOutputPath c)) cs = true ->
  let m' := run_state (exec cs) m in
  (endRun_locked m).2 = m /\
  endRun_unlocked snap m = endRun m /\
  w (run_state (endRun_unlocked snap) m') = w (run_state endRun m) /\
  g (run_state (endRun_unlocked snap) m') = g m'.
Proof.
  intros Hsnap Hio Hpath m'.
  rewrite endRun_locked_eq in Hsnap. cbn [fst] in Hsnap.
  destruct (empty (samples (g m))) eqn:E; [done |]. injection Hsnap as <-.
  assert (w m' = w m) as Hw by (by apply exec_world).
  assert (outputPath (g m') = outputPath (g m)) as Hp.
  { destruct (exec_state cs m) as (_ & Hp & _). fold m' in Hp.
    by rewrite Hp, last_path_fixed. }
  split; [by rewrite endRun_locked_eq |]. split; [| split].
  - rewrite endRun_unlocked_eq, endRun_eq, E. reflexivity.
  - unfold run_state. rewrite endRun_unlocked_eq, endRun_eq, E. cbn [snd].
    cbv zeta. rewrite Hw, Hp. cbn [snap_samples snap_label snap_runId snap_numThreads].
    unfold rows_of. by destruct (fopen _ _ _).1.
  - unfold run_state. rewrite endRun_unlocked_eq. cbn [snd]. cbv zeta.
    by destruct (fopen _ _ _).1.
Qed.

Lemma flush_writes_the_snapshot_witness :
  let m := run_state (exec [BeginRun 2; RecordSample 0 1 2]) (boot fresh_world) in
  let snap := mkSnapshot [sample_of 0 1 2] "" 1 2 in
  let m' := run_state (exec [RecordSample 1 5 6; SetRunLabel "late"; BeginRun 9]) m in
  output_text (run_state (endRun_unlocked snap) m') =
    header +:+ line "1,,2,0,1000.000000,2000.000000,1000.000000" /\
  runId (g (run_state (endRun_unlocked snap) m')) = 2.
Proof.
  cbv zeta.
  destruct (flush_writes_the_snapshot
              (run_state (exec [BeginRun 2; RecordSample 0 1 2]) (boot fresh_world))
              (mkSnapshot [sample_of 0 1 2] "" 1 2)
              [RecordSample 1 5 6; SetRunLabel "late"; BeginRun 9])
    as (_ & _ & Hw & Hg); try reflexivity.
  split.
  - unfold output_text. rewrite Hw, Hg. vm_compute. reflexivity.
  - rewrite Hg. reflexivity.
Defined.

Lemma eqb_nil (s : string) : String.eqb s "" = is_nil s.
Proof. by destruct s. Qed.

Lemma plain_body_inside (cs : list call) :
  plain_body cs = true ->
  forallb inside_run cs = true /\
  forallb (fun c => negb (is_setOutputPath c)) cs = true.
Proof.
  unfold plain_body. induction cs as [|c cs IH]; [done |]. cbn [forallb].
  intros H. apply andb_prop in H as [Hc Hcs]. apply andb_prop in Hc as [Hc1 Hc2].
  destruct (IH Hcs) as [-> ->]. by rewrite Hc1, Hc2.
Qed.

Lemma rows_nonempty (rid : Z) (lbl : string) (nt : Z) (l : list Sample) :
  l <> [] -> is_nil (concat_strings (map (row rid lbl nt) l)) = false.
Proof.
  destruct l as [|smp l]; [done |]. intros _. cbn [map concat_strings].
  destruct (row rid lbl nt smp +:+ concat_strings (map (row rid lbl nt) l)) eqn:E; [| done].
  apply append_eq_nil in E as [E _]. by apply row_nonempty in E.
Qed.

(** With a friendly output file the flush cannot fail, and
    [fileHasContent] sees exactly whether the file holds text. *)
Lemma friendly_output_opens (m : machine) :
  friendly_output m = true ->
  append_failure m = None /\
  output_has_content m = negb (is_nil (output_text m)) /\
  (output_perms m).1 = true /\ (output_perms m).2 = true.
Proof.
  unfold friendly_output, output_perms, output_text, file_data.
  rewrite append_failure_eq, output_has_content_eq.
  destruct (files (w m) !! resolve (w m) (c_str (outputPath (g m)))) as [[[] [] d|e]|]; try done.
  - intros _. by rewrite eqb_nil.
  - cbn [default is_nil negb fst snd]. intros H. by apply andb_prop in H as [-> ->].
Qed.

(** One run from [beginRun] to [endRun] on a friendly output file. *)
Lemma one_run (m : machine) (n : Z) (cs : list call) :
  friendly_output m = true ->
  plain_body cs = true ->
  0 <= runCounter (g m) < INT_MAX ->
  let m3 := run_state (exec (run_calls (n, cs))) m in
  let rows :=
    concat_strings
      (map (row (runCounter (g m) + 1) (last_label (label (g m)) cs) n) (recorded cs)) in
  g m3 = mkGlobalState (runCounter (g m) + 1) n (runCounter (g m) + 1)
                       (last_label (label (g m)) cs) (outputPath (g m)) (recorded cs) /\
  friendly_output m3 = true /\
  stderr (w m3) = stderr (w m) /\
  output_text m3 =
    output_text m +:+ (if is_nil (output_text m) && negb (is_nil rows) then header else "")
                  +:+ rows.
Proof.
  intros Hfr Hbody Hrc m3 rows.
  destruct (plain_body_inside cs Hbody) as [Hin Hpath].
  set (m2 := run_state (exec cs) (run_state (beginRun n) m)).
  assert (m3 = run_state endRun m2) as Hm3.
  { unfold m3, run_calls. cbn [fst snd]. rewrite exec_cons, exec_app, exec_cons. done. }
  assert (g m2 = mkGlobalState (runCounter (g m) + 1) n (runCounter (g m) + 1)
                   (last_label (label (g m)) cs) (outputPath (g m)) (recorded cs)) as Hg2.
  { unfold m2. rewrite (exec_inside_run _ _ Hin). unfold run_state. rewrite beginRun_eq.
    cbn [snd g w runId numThreads runCounter label outputPath samples app].
    by rewrite (pre_incr_small _ Hrc), last_path_fixed. }
  assert (w m2 = w m) as Hw2.
  { unfold m2. rewrite (exec_inside_run _ _ Hin). unfold run_state. by rewrite beginRun_eq. }
  assert (friendly_output m2 = true) as Hfr2.
  { unfold friendly_output. rewrite Hw2, Hg2. exact Hfr. }
  assert (output_text m2 = output_text m) as Ht2.
  { unfold output_text. by rewrite Hw2, Hg2. }
  destruct (friendly_output_opens m2 Hfr2) as (Hopen & Hhas & Hr & Ha).
  assert (g m3 = g m2) as Hg3 by (rewrite Hm3; apply endRun_state).
  split; [by rewrite Hg3 |].
  destruct (recorded cs) as [|smp smps] eqn:E.
  - assert (m3 = m2) as ->.
    { rewrite Hm3. unfold run_state. rewrite endRun_nothing; [done | by rewrite Hg2]. }
    split; [exact Hfr2 |]. split; [by rewrite Hw2 |].
    unfold rows. cbn [map concat_strings is_nil negb]. rewrite andb_false_r.
    by rewrite Ht2, append_nil_l, append_nil_r.
  - assert (samples (g m2) <> []) as Hne by (by rewrite Hg2).
    destruct (endRun_appends m2 Hne Hopen) as [Hnode Herr]. rewrite <- Hm3 in Hnode, Herr.
    assert (resolve (w m3) = resolve (w m2)) as Hres
      by (rewrite Hm3; apply endRun_resolve).
    split; [| split; [by rewrite Herr, Hw2 |]].
    + unfold friendly_output. rewrite Hg3, Hres, Hnode, Hr, Ha. done.
    + unfold output_text at 1, file_data. rewrite Hg3, Hres, Hnode. cbn [default].
      rewrite Hhas, Ht2, negb_involutive. unfold flush_text, rows_of. rewrite Hg2.
      cbn [runId label numThreads samples]. fold rows.
      assert (is_nil rows = false) as -> by (by apply rows_nonempty).
      cbn [negb]. by rewrite andb_true_r.
Qed.

Lemma session_cons (r : Z * list call) (runs : list (Z * list call)) (m : machine) :
  run_state (exec (session (r :: runs))) m =
  run_state (exec (session runs)) (run_state (exec (run_calls r)) m).
Proof. unfold session. cbn [flat_map]. apply exec_app. Qed.

(** X14: a client that makes one run after the other on an output file
    that can be read and appended to.  The file ends up with what it held,
    then the header line
    "run_id,label,num_threads,thread_id,start_ms,end_ms,duration_ms" if it
    held nothing and some run has samples, then the rows of all runs in
    order, run ids counting on from the process's counter; the header is
    written at most once and never between rows, runs without samples
    leave no trace, and nothing is printed on [stderr]. *)
Theorem session_writes_header_once (runs : list (Z * list call)) (m : machine) :
  friendly_output m = true ->
  forallb (fun r => plain_body r.2) runs = true ->
  0 <= runCounter (g m) ->
  runCounter (g m) + Z.of_nat (length runs) <= INT_MAX ->
  let m' := run_state (exec (session runs)) m in
  let rows := session_rows (runCounter (g m)) (label (g m)) runs in
  output_text m' =
    output_text m
    +:+ (if is_nil (output_text m) && negb (is_nil rows)
         then line "run_id,label,num_threads,thread_id,start_ms,end_ms,duration_ms"
         else "")
    +:+ rows /\
  runCounter (g m') = runCounter (g m) + Z.of_nat (length runs) /\
  stderr (w m') = stderr (w m).
Proof.
  change (line "run_id,label,num_threads,thread_id,start_ms,end_ms,duration_ms")
    with header.
  revert m. induction runs as [|[n cs] runs IH]; intros m Hfr Hbodies Hlo Hhi.
  - cbv zeta. cbn [session_rows is_nil negb length].
    rewrite andb_false_r, append_nil_l, append_nil_r.
    change (run_state (exec (session [])) m) with m.
    split; [done | split; [lia | done]].
  - cbn [forallb snd] in Hbodies. apply andb_prop in Hbodies as [Hbody Hbodies].
    cbn [length] in Hhi.
    assert (0 <= runCounter (g m) < INT_MAX) as Hrc by lia.
    destruct (one_run m n cs Hfr Hbody Hrc) as (Hg1 & Hfr1 & Herr1 & Ht1).
    cbv zeta. rewrite session_cons.
    generalize dependent (run_state (exec (run_calls (n, cs))) m). intros m1 Hg1 Hfr1 Herr1 Ht1.
    assert (runCounter (g m1) = runCounter (g m) + 1) as Hrc1 by (by rewrite Hg1).
    assert (label (g m1) = last_label (label (g m)) cs) as Hl1 by (by rewrite Hg1).
    destruct (IH m1 Hfr1 Hbodies) as (Ht & Hc & Herr); [lia | lia |].
    split; [| split; [rewrite Hc; cbn [length]; lia | by rewrite Herr, Herr1]].
    rewrite Ht, Hrc1, Hl1, Ht1. cbn [session_rows fst snd].
    set (R := concat_strings (map (row (runCounter (g m) + 1)
                                       (last_label (label (g m)) cs) n) (recorded cs))).
    set (S := session_rows (runCounter (g m) + 1) (last_label (label (g m)) cs) runs).
    destruct (output_text m) as [|c0 t0], R as [|c1 R1], S as [|c2 S2];
      cbn [is_nil negb andb]; rewrite ?append_nil_l, ?append_nil_r, ?append_assoc;
      try reflexivity.
    all: cbn [is_nil negb andb]; rewrite ?append_nil_l, ?append_nil_r, ?append_assoc;
      try reflexivity.
Qed.

Lemma session_writes_header_once_witness :
  output_text
    (run_state (exec (session [(2, [RecordSample 0 1 2; SetRunLabel "a"; RecordSample 1 1 2]);
                               (8, []);
                               (1, [RecordSample 0 2 3])]))
               (boot fresh_world)) =
  line "run_id,label,num_threads,thread_id,start_ms,end_ms,duration_ms"
  +:+ line "1,a,2,0,1000.000000,2000.000000,1000.000000"
  +:+ line "1,a,2,1,1000.000000,2000.000000,1000.000000"
  +:+ line "3,a,1,0,2000.000000,3000.000000,1000.000000".
Proof.
  destruct (session_writes_header_once
              [(2, [RecordSample 0 1 2; SetRunLabel "a"; RecordSample 1 1 2]);
               (8, []);
               (1, [RecordSample 0 2 3])]
              (boot fresh_world))
    as (Htext & _); [reflexivity | reflexivity | done | done |].
  rewrite Htext. vm_compute. reflexivity.
Defined.

(** X15: samples recorded after an [endRun] and before the next
    [beginRun] join the samples already flushed, which are still in the
    buffer.  The next [endRun] therefore writes the earlier rows again,
    followed by the new ones, all with the label then current. *)
Theorem late_samples_reflush_earlier_rows (m : machine) (cs : list call) :
  samples (g m) <> [] ->
  forallb inside_run cs = true ->
  let m1 := run_state (exec cs) (run_state endRun m) in
  append_failure m1 = None ->
  samples (g m1) = (samples (g m) ++ recorded cs)%list /\
  output_text (run_state endRun m1) =
    output_text m1 +:+ (if output_has_content m1 then "" else header)
      +:+ concat_strings
            (map (row (runId (g m)) (last_label (label (g m)) cs) (numThreads (g m)))
                 (samples (g m)))
      +:+ concat_strings
            (map (row (runId (g m)) (last_label (label (g m)) cs) (numThreads (g m)))
                 (recorded cs)).
Proof.
  intros Hne Hin m1 Hopen.
  assert (g m1 = mkGlobalState (runId (g m)) (numThreads (g m)) (runCounter (g m))
                   (last_label (label (g m)) cs) (last_path (outputPath (g m)) cs)
                   (samples (g m) ++ recorded cs)) as Hg.
  { unfold m1. rewrite (exec_inside_run _ _ Hin). cbn [g]. by rewrite endRun_state. }
  split; [by rewrite Hg |].
  rewrite output_text_flushed; [| | done].
  - unfold flush_text, rows_of. rewrite Hg. cbn [runId label numThreads samples].
    rewrite map_app, concat_strings_app. by destruct (output_has_content m1).
  - rewrite Hg. cbn [samples]. destruct (samples (g m)); done.
Qed.

Lemma late_samples_reflush_earlier_rows_witness :
  let m := run_state (exec [BeginRun 1; RecordSample 0 1 2]) (boot fresh_world) in
  let m1 := run_state (exec [RecordSample 0 2 3]) (run_state endRun m) in
  output_text (run_state endRun m1) =
    header +:+ line "1,,1,0,1000.000000,2000.000000,1000.000000"
           +:+ line "1,,1,0,1000.000000,2000.000000,1000.000000"
           +:+ line "1,,1,0,2000.000000,3000.000000,1000.000000".
Proof.
  cbv zeta.
  destruct (late_samples_reflush_earlier_rows
              (run_state (exec [BeginRun 1; RecordSample 0 1 2]) (boot fresh_world))
              [RecordSample 0 2 3])
    as (_ & Htext).
  - discriminate.
  - reflexivity.
  - vm_compute. reflexivity.
  - rewrite Htext. vm_compute. reflexivity.
Defined.

Lemma before_char_app (c : ascii) (s t : string) :
  has_char c s = false -> before_char c (s +:+ String c t) = s.
Proof.
  induction s as [|c' s IH]; intros H.
  - rewrite append_nil_l. cbn [before_char]. by rewrite Ascii.eqb_refl.
  - rewrite append_cons. cbn [before_char has_char] in *.
    destruct (Ascii.eqb c' c); [done |]. by rewrite IH.
Qed.

Lemma has_char_count (c : ascii) (s : string) :
  count_char c s = O -> has_char c s = false.
Proof.
  induction s as [|c' s IH]; [done |]. cbn [count_char has_char].
  destruct (Ascii.eqb c' c); [done |]. exact IH.
Qed.

(** [%d] prints an integer so that it reads back. *)
Lemma fmt_d_reads_back (z : Z) :
  option_map Z.of_int (NilZero.int_of_string (fmt_d z)) = Some z.
Proof.
  unfold fmt_d. rewrite NilZero.isi.
  - cbn [option_map]. by rewrite DecimalZ.of_to.
  - destruct z as [|p|p]; [done | | done].
    intros [= H]. by apply DecimalPos.Unsigned.to_uint_nonnil in H.
  - destruct z as [|p|p]; [done | done |].
    intros [= H]. by apply DecimalPos.Unsigned.to_uint_nonnil in H.
Qed.

(** X16: the run id of a row can be read back.  The text before the first
    comma of a row is the decimal form of the run id and parses to it, so
    rows of different runs never begin alike, whatever the label is. *)
Theorem run_id_reads_back (rid : Z) (lbl : string) (nt : Z) (smp : Sample) :
  before_char "," (row rid lbl nt smp) = fmt_d rid /\
  option_map Z.of_int (NilZero.int_of_string (before_char "," (row rid lbl nt smp)))
    = Some rid /\
  (forall rid' lbl' nt' smp',
     row rid lbl nt smp = row rid' lbl' nt' smp' -> rid = rid').
Proof.
  assert (forall r l n s, before_char "," (row r l n s) = fmt_d r) as Hfield.
  { intros r l n s. unfold row.
    change ("," +:+ ?x) with (String "," x).
    apply before_char_app, has_char_count, count_char_fmt_d. by left. }
  split; [apply Hfield |]. split; [rewrite Hfield; apply fmt_d_reads_back |].
  intros rid' lbl' nt' smp' H.
  apply (f_equal (before_char ",")) in H. rewrite !Hfield in H.
  apply (f_equal (fun s => option_map Z.of_int (NilZero.int_of_string s))) in H.
  rewrite !fmt_d_reads_back in H. by injection H.
Qed.

Lemma endRun_extends_files (m : machine) (q d : string) :
  file_data (w m) q = Some d ->
  exists t : string, file_data (w (run_state endRun m)) q = Some (d +:+ t).
Proof.
  intros Hd. unfold file_data in *. rewrite endRun_resolve.
  destruct (decide (resolve (w m) q = resolve (w m) (c_str (outputPath (g m)))))
    as [Hq | Hq].
  - rewrite Hq in *. destruct (samples (g m)) as [|smp smps] eqn:E.
    + exists "". unfold run_state. by rewrite (endRun_nothing _ E), append_nil_r.
    + assert (samples (g m) <> []) as Hne by (by rewrite E).
      rewrite (endRun_world _ Hne). cbv zeta. cbn [w].
      destruct (files (w m) !! resolve (w m) (c_str (outputPath (g m))))
        as [[r [] d0|e]|] eqn:F; try done; injection Hd as ->.
      * eexists. destruct r; cbn [files set_files set_errno];
          by rewrite lookup_insert_eq.
      * exists "". cbn [files write_stderr set_errno]. by rewrite F, append_nil_r.
  - exists "". destruct (endRun_other_files m _ Hq) as (Hf & _).
    by rewrite Hf, append_nil_r.
Qed.

(** X17: the recorder only ever appends.  Whatever calls a client makes,
    a file that existed keeps existing and its old content stays at the
    front of its new content: nothing is truncated, overwritten or
    removed, neither in the output file nor anywhere else. *)
Theorem recorder_never_loses_file_content (cs : list call) (m : machine) (q d : string) :
  file_data (w m) q = Some d ->
  exists t : string, file_data (w (run_state (exec cs) m)) q = Some (d +:+ t).
Proof.
  revert m d. induction cs as [|c cs IH]; intros m d Hd.
  - exists "". by rewrite append_nil_r.
  - rewrite exec_cons.
    assert (exists t, file_data (w (run_state (exec_call c) m)) q = Some (d +:+ t))
      as (t1 & H1).
    { destruct (is_endRun c) eqn:E.
      - destruct c; try done. by apply endRun_extends_files.
      - exists "". by rewrite (exec_call_world _ _ E), append_nil_r. }
    destruct (IH _ _ H1) as (t2 & H2). exists (t1 +:+ t2). by rewrite H2, append_assoc.
Qed.

Lemma recorder_never_loses_file_content_witness :
  exists t : string,
    file_data
      (w (run_state (exec [BeginRun 1; RecordSample 0 1 2; EndRun; EndRun])
                    (boot write_only_world)))
      "thread_timings.csv" =
    Some ((header +:+ line "1,,1,0,0.000000,1000.000000,1000.000000") +:+ t).
Proof.
  apply (recorder_never_loses_file_content
           [BeginRun 1; RecordSample 0 1 2; EndRun; EndRun] (boot write_only_world)
           "thread_timings.csv").
  reflexivity.
Defined.
